(** * RAG chatbot: conversation cache and retrieval gate

    A shallow embedding of the controller layer of the chatbot
    ([chat/chat_manager.py], [chat/langchain_manager.py],
    [infrastructure/rag_manager.py] and the turn handling of [chat/gui.py])
    together with the properties its specification states about it.

    Conventions of the embedding.
    - A Python [str] is a sequence of Unicode code points, [list N]:
      [len], slicing, [startswith] and [strip] all count code points.
    - A Python [float] is an IEEE 754 binary64 number, the primitive
      [float] of the standard library; [<=] is [PrimFloat.leb].
    - A [dict] used as a record (a chat, a message, a search hit) is a
      record whose optional keys are [option] fields; a [dict] used as a
      map (the histories) is a [gmap].
    - A method is a computation in the monad [M]: it reads and writes the
      program state and either returns or raises.  The state survives a
      raise, as the attributes of a Python object do.
    - The collaborators that are not part of these modules (the Firestore
      manager, the Chroma manager, the LangChain chains, [shortuuid]) are
      the fields of a [World]; every call to one of them is appended to the
      [trace] of the state, and its answer may depend on the trace so far.
    - [self.chat_list] / [self.all_chat_histories] and the entries of
      [st.session_state] with the same names are the same Python objects
      once the constructor has run.  Every in-place mutation in the source
      is followed by the assignment that re-binds the session entry, so the
      two are kept here as two values that each method leaves equal.
    - Calls that only draw on the page ([st.markdown], [st.info], ...) are
      left out. *)

From Stdlib Require Import NArith ZArith String Ascii Floats DecimalString.
From stdpp Require Import base option list gmap.

Set Warnings "-inexact-float".
Set Default Proof Using "Type".

Open Scope N_scope.

(** ** Python strings *)

Abbreviation str := (list N).

(** An ASCII literal of the source as a code point sequence. *)
Definition lit (s : string) : str :=
  map N_of_ascii (list_ascii_of_string s).

(** [str(n)] for an integer. *)
Definition str_of_int (z : Z) : str :=
  lit (NilZero.string_of_int (Z.to_int z)).

(** [s.startswith(p)] *)
Fixpoint startswith (s p : str) {struct p} : bool :=
  match p, s with
  | [], _ => true
  | _ :: _, [] => false
  | c :: p', d :: s' => if decide (c = d) then startswith s' p' else false
  end.

(** [c.isspace()]: the code points CPython's [str.strip()] removes. *)
Definition isspace (c : N) : bool :=
  ((9 <=? c) && (c <=? 13)) || ((28 <=? c) && (c <=? 32))
  || (c =? 133) || (c =? 160) || (c =? 5760)
  || ((8192 <=? c) && (c <=? 8202))
  || (c =? 8232) || (c =? 8233) || (c =? 8239) || (c =? 8287)
  || (c =? 12288).

Fixpoint lstrip (s : str) : str :=
  match s with
  | [] => []
  | c :: s' => if isspace c then lstrip s' else s
  end.

Definition rstrip (s : str) : str := rev (lstrip (rev s)).

(** [s.strip()] *)
Definition strip (s : str) : str := rstrip (lstrip s).

(** [sep.join(parts)] *)
Fixpoint join (sep : str) (parts : list str) : str :=
  match parts with
  | [] => []
  | [p] => p
  | p :: rest => p ++ sep ++ join sep rest
  end.

(** ** Data model *)

(** An entry of [chat_list]: [{"id": ..., "title": ...}]. *)
Record Chat := { id : str; title : str }.

(** A persisted summary of a retrieval hit, as [_format_chunks_for_save]
    builds it. *)
Record ChunkRef := {
  chunk_id : str;
  chunk_distance : float;
  chunk_source : str
}.

(** A message of a history.  [is_rag] and [chunks] are keys that a
    message may lack. *)
Record Message := {
  role : str;
  content : str;
  is_rag : option bool;
  chunks : option (list ChunkRef)
}.

(** A value stored under a metadata key of a search hit. *)
Inductive MetaValue := MetaStr (s : str) | MetaInt (z : Z).

Definition format_meta (v : MetaValue) : str :=
  match v with
  | MetaStr s => s
  | MetaInt z => str_of_int z
  end.

Record Metadata := {
  meta_source : option str;
  meta_page : option MetaValue;
  meta_chunk_index : option MetaValue
}.

(** A hit of the vector search. *)
Record SearchHit := {
  text : str;
  distance : float;
  metadata : Metadata
}.

(** LangChain's message objects. *)
Inductive LCMessage := HumanMessage (c : str) | AIMessage (c : str).

(** The dictionary [get_rag_response_data] returns. *)
Record RagData := {
  use_rag : bool;
  context : str;
  prompt : str;
  search_results : list SearchHit
}.

(** ** Constants of [config/settings.py] *)

Definition RAG_THRESHOLD : float := 1.2%float.
Definition TOP_K_RESULTS : nat := 3.
Definition TITLE_MAX_LENGTH : nat := 15.

(** "新規チャット", the title of a conversation that has not been named. *)
Definition NEW_CHAT_TITLE : str := [26032; 35215; 12481; 12515; 12483; 12488].

(** "不明なチャット", the title reported for an id that is not listed. *)
Definition UNKNOWN_CHAT_TITLE : str :=
  [19981; 26126; 12394; 12481; 12515; 12483; 12488].

(** "不明", the source name of a hit without one. *)
Definition UNKNOWN_SOURCE : str := [19981; 26126].

Definition ROLE_USER : str := lit "user".
Definition ROLE_ASSISTANT : str := lit "assistant".

Arguments lit : simpl never.
Arguments str_of_int : simpl never.
Arguments NEW_CHAT_TITLE : simpl never.
Arguments UNKNOWN_CHAT_TITLE : simpl never.
Arguments UNKNOWN_SOURCE : simpl never.
Arguments ROLE_USER : simpl never.
Arguments ROLE_ASSISTANT : simpl never.
Arguments RAG_THRESHOLD : simpl never.
Arguments TOP_K_RESULTS : simpl never.
Arguments TITLE_MAX_LENGTH : simpl never.

(** ** Exceptions, the outside world and the program state *)

Inductive exn :=
  | KeyError (key : str)
  | AttributeError (name : str)
  | Exception (msg : str).

Inductive result (A : Type) :=
  | Ok (a : A)
  | Raise (e : exn).
Arguments Ok {A} a.
Arguments Raise {A} e.

(** A call that leaves the process. *)
Inductive Event :=
  | DbGetAllChats
  | DbGetChatHistory (chat_id : str)
  | DbSaveMessage (chat_id role content : str) (is_rag : option bool)
      (chunks : option (list ChunkRef))
  | DbCreateChat (chat_id : option str) (title : str)
  | DbUpdateChatTitle (chat_id new_title : str)
  | Uuid
  | TitleChainInvoke (messages : list LCMessage)
  | ChainStream (messages : list LCMessage)
  | RagChainStream (messages : list LCMessage)
  | SearchWithThreshold (query : str) (threshold : float) (n_results : nat).

(** The collaborators.  Each answer is a function of the calls made so
    far and of the arguments. *)
Record World := {
  (* infrastructure/db_manager.py *)
  db_get_all_chats : list Event -> result (list Chat);
  db_get_chat_history : list Event -> str -> result (list Message);
  db_save_message :
    list Event -> str -> str -> str -> option bool ->
    option (list ChunkRef) -> result unit;
  db_create_chat : list Event -> option str -> str -> result (option str);
  db_update_chat_title : list Event -> str -> str -> result unit;
  (* shortuuid.uuid() *)
  shortuuid_uuid : list Event -> str;
  (* the chains of LangChainManager *)
  title_chain_invoke : list Event -> list LCMessage -> result str;
  chain_stream : list Event -> list LCMessage -> result (list str);
  rag_chain_stream : list Event -> list LCMessage -> result (list str);
  (* infrastructure/chroma_manager.py *)
  search_with_threshold :
    list Event -> str -> float -> nat -> result (list SearchHit * bool)
}.

(** [st.session_state.current_chat] *)
Record CurrentChat := { cc_id : option str; cc_title : option str }.

(** [st.session_state]: the entries these modules use. *)
Record SessionState := {
  ss_chat_list : option (list Chat);
  ss_all_chat_histories : option (gmap str (list Message));
  ss_current_chat : option CurrentChat
}.

(** The attributes of a [RAGManager] that these modules read or write. *)
Record RAGManager := { threshold : float }.

(** The attributes of the [ChatManager] and [RAGManager] instances, the
    session store and the calls made so far. *)
Record State := {
  chat_list : list Chat;
  all_chat_histories : gmap str (list Message);
  session_state : SessionState;
  rag_manager : option RAGManager;
  trace : list Event
}.

Definition empty_session : SessionState :=
  {| ss_chat_list := None; ss_all_chat_histories := None;
     ss_current_chat := None |}.

(** The state in which [main.py] starts a new session: nothing in the
    session store, no call made yet.  The two [ChatManager] attributes are
    not bound before the constructor runs; they are given empty values. *)
Definition session_start (rag : option RAGManager) : State :=
  {| chat_list := []; all_chat_histories := ∅;
     session_state := empty_session; rag_manager := rag; trace := [] |}.

Definition set_chat_list (l : list Chat) (s : State) : State :=
  {| chat_list := l; all_chat_histories := all_chat_histories s;
     session_state := session_state s; rag_manager := rag_manager s;
     trace := trace s |}.

Definition set_all_chat_histories (h : gmap str (list Message)) (s : State)
  : State :=
  {| chat_list := chat_list s; all_chat_histories := h;
     session_state := session_state s; rag_manager := rag_manager s;
     trace := trace s |}.

Definition set_session_state (ss : SessionState) (s : State) : State :=
  {| chat_list := chat_list s; all_chat_histories := all_chat_histories s;
     session_state := ss; rag_manager := rag_manager s;
     trace := trace s |}.

Definition set_trace (t : list Event) (s : State) : State :=
  {| chat_list := chat_list s; all_chat_histories := all_chat_histories s;
     session_state := session_state s; rag_manager := rag_manager s;
     trace := t |}.

Definition set_ss_chat_list (l : list Chat) (ss : SessionState)
  : SessionState :=
  {| ss_chat_list := Some l;
     ss_all_chat_histories := ss_all_chat_histories ss;
     ss_current_chat := ss_current_chat ss |}.

Definition set_ss_all_chat_histories (h : gmap str (list Message))
  (ss : SessionState) : SessionState :=
  {| ss_chat_list := ss_chat_list ss;
     ss_all_chat_histories := Some h;
     ss_current_chat := ss_current_chat ss |}.

Definition set_ss_current_chat (c : CurrentChat) (ss : SessionState)
  : SessionState :=
  {| ss_chat_list := ss_chat_list ss;
     ss_all_chat_histories := ss_all_chat_histories ss;
     ss_current_chat := Some c |}.

(** ** The monad of methods *)

Definition M (A : Type) : Type := State -> result A * State.

Definition ret {A} (a : A) : M A := fun s => (Ok a, s).

Definition raise {A} (e : exn) : M A := fun s => (Raise e, s).

Definition bind {A B} (m : M A) (k : A -> M B) : M B :=
  fun s =>
    match m s with
    | (Ok a, s') => k a s'
    | (Raise e, s') => (Raise e, s')
    end.

Notation "'do' x <- m ; k" := (bind m (fun x => k))
  (at level 10, x name, m at level 100, k at level 200).

Definition get_state : M State := fun s => (Ok s, s).

Definition modify (f : State -> State) : M unit := fun s => (Ok tt, f s).

(** [try: m except Exception: h] *)
Definition try_except {A} (m : M A) (h : exn -> M A) : M A :=
  fun s =>
    match m s with
    | (Ok a, s') => (Ok a, s')
    | (Raise e, s') => h e s'
    end.

(** A call to a collaborator: the answer is computed from the calls made
    before it, and the call is recorded whether it returns or raises. *)
Definition call {A} (ev : Event) (answer : list Event -> result A) : M A :=
  fun s => (answer (trace s), set_trace (trace s ++ [ev]) s).

(** [st.session_state.chat_list = l] and the like. *)
Definition sync_chat_list : M unit :=
  modify (fun s =>
    set_session_state (set_ss_chat_list (chat_list s) (session_state s)) s).

Definition sync_all_chat_histories : M unit :=
  modify (fun s =>
    set_session_state
      (set_ss_all_chat_histories (all_chat_histories s) (session_state s)) s).

(** How many calls of a kind the trace holds. *)
Definition is_remote_read (ev : Event) : bool :=
  match ev with
  | DbGetAllChats | DbGetChatHistory _ => true
  | _ => false
  end.

Definition count_events (p : Event -> bool) (t : list Event) : nat :=
  length (filter (fun ev => p ev = true) t).

(** ** chat/langchain_manager.py *)

Module LangChainManager.
Section Methods.
Variable W : World.

Definition create_human_message (content : str) : LCMessage :=
  HumanMessage content.

Definition create_ai_message (content : str) : LCMessage :=
  AIMessage content.

(** The generators are consumed to their end by their callers, which
    only concatenate the fragments: a stream is the list of its
    fragments, or the exception that interrupts it. *)
Definition get_streaming_response (messages : list LCMessage)
  : M (list str) :=
  call (ChainStream messages) (fun t => chain_stream W t messages).

Definition get_streaming_response_rag (messages : list LCMessage)
  : M (list str) :=
  call (RagChainStream messages) (fun t => rag_chain_stream W t messages).

(** The last three statements of [generate_title]. *)
Definition trim_title (title : str) : str :=
  let title := strip title in
  if (TITLE_MAX_LENGTH <? length title)%nat
  then firstn TITLE_MAX_LENGTH title
  else title.

Definition generate_title (messages : list LCMessage) : M str :=
  do title <- call (TitleChainInvoke messages)
                (fun t => title_chain_invoke W t messages);
  ret (trim_title title).

End Methods.
End LangChainManager.

(** ** chat/chat_manager.py *)

Module ChatManager.
Section Methods.
Variable W : World.

Definition _load_chat_list_from_db : M (list Chat) :=
  call DbGetAllChats (db_get_all_chats W).

(** Called by [__init__]: binds [chat_list] and [all_chat_histories]. *)
Definition _restore_from_session_state : M unit :=
  do s <- get_state;
  match ss_chat_list (session_state s) with
  | Some l =>
      do _ <- modify (set_chat_list l);
      modify (set_all_chat_histories
                (default ∅ (ss_all_chat_histories (session_state s))))
  | None =>
      do l <- _load_chat_list_from_db;
      do _ <- modify (set_chat_list l);
      do _ <- modify (set_all_chat_histories ∅);
      do _ <- sync_chat_list;
      sync_all_chat_histories
  end.

Definition get_chat_list : M (list Chat) :=
  do s <- get_state; ret (chat_list s).

Definition get_current_chat_id (l : list Chat) : M str :=
  match l with
  | c :: _ => ret (id c)
  | [] => call Uuid (fun t => Ok (shortuuid_uuid W t))
  end.

(** The loop of [get_chat_title_by_id]. *)
Fixpoint title_by_id (l : list Chat) (chat_id : str) : str :=
  match l with
  | [] => UNKNOWN_CHAT_TITLE
  | c :: l' => if decide (id c = chat_id) then title c
               else title_by_id l' chat_id
  end.

Definition get_chat_title_by_id (chat_id : str) : M str :=
  do s <- get_state; ret (title_by_id (chat_list s) chat_id).

Definition get_chat_histories (chat_id : str) : M (list Message) :=
  do s <- get_state;
  match all_chat_histories s !! chat_id with
  | Some h => ret h
  | None =>
      do histories <- call (DbGetChatHistory chat_id)
                        (fun t => db_get_chat_history W t chat_id);
      do _ <- modify (fun s =>
                set_all_chat_histories
                  (<[chat_id := histories]> (all_chat_histories s)) s);
      do _ <- sync_all_chat_histories;
      ret histories
  end.

(** Truth value of the [chunks] argument: [None] and [[]] are false. *)
Definition chunks_truthy (chunks : option (list ChunkRef)) : bool :=
  match chunks with
  | Some (_ :: _) => true
  | _ => false
  end.

(** The dictionary [add_message] builds before it stores it. *)
Definition build_message (role content : str) (is_rag : bool)
  (chunks : option (list ChunkRef)) : Message :=
  if decide (role = ROLE_ASSISTANT) then
    {| role := role; content := content; is_rag := Some is_rag;
       chunks := if is_rag && chunks_truthy chunks then chunks else None |}
  else
    {| role := role; content := content; is_rag := None; chunks := None |}.

Definition add_message (chat_id role content : str) (is_rag : bool)
  (chunks : option (list ChunkRef)) : M unit :=
  let message := build_message role content is_rag chunks in
  do _ <- modify (fun s =>
            match all_chat_histories s !! chat_id with
            | Some _ => s
            | None =>
                set_all_chat_histories
                  (<[chat_id := []]> (all_chat_histories s)) s
            end);
  do _ <- modify (fun s =>
            set_all_chat_histories
              (<[chat_id :=
                   default [] (all_chat_histories s !! chat_id)
                     ++ [message]]> (all_chat_histories s)) s);
  do _ <- sync_all_chat_histories;
  let is_rag_arg :=
    if decide (role = ROLE_ASSISTANT) then Some is_rag else None in
  call (DbSaveMessage chat_id role content is_rag_arg chunks)
    (fun t => db_save_message W t chat_id role content is_rag_arg chunks).

Definition create_new_chat_with_title (title : str) : M Chat :=
  do r <- call (DbCreateChat None title)
            (fun t => db_create_chat W t None title);
  do new_id <- match r with
               | Some i => ret i
               | None => call Uuid (fun t => Ok (shortuuid_uuid W t))
               end;
  let new_chat := {| id := new_id; title := title |} in
  do _ <- modify (fun s => set_chat_list (new_chat :: chat_list s) s);
  do _ <- modify (fun s =>
            set_all_chat_histories
              (<[new_id := []]> (all_chat_histories s)) s);
  do _ <- sync_chat_list;
  do _ <- sync_all_chat_histories;
  ret new_chat.

(** A message whose role is neither of the two is skipped. *)
Fixpoint format_chat_histories (chat_histories : list Message)
  : list LCMessage :=
  match chat_histories with
  | [] => []
  | chat :: rest =>
      if decide (role chat = ROLE_USER) then
        LangChainManager.create_human_message (content chat)
          :: format_chat_histories rest
      else if decide (role chat = ROLE_ASSISTANT) then
        LangChainManager.create_ai_message (content chat)
          :: format_chat_histories rest
      else format_chat_histories rest
  end.

(** The loop of [update_chat_title]: the first entry with the id gets
    the title, and the loop stops. *)
Fixpoint retitle (l : list Chat) (chat_id new_title : str) : list Chat :=
  match l with
  | [] => []
  | c :: l' =>
      if decide (id c = chat_id)
      then {| id := id c; title := new_title |} :: l'
      else c :: retitle l' chat_id new_title
  end.

Definition update_chat_title (chat_id new_title : str) : M unit :=
  do _ <- modify (fun s =>
            set_chat_list (retitle (chat_list s) chat_id new_title) s);
  do _ <- sync_chat_list;
  call (DbUpdateChatTitle chat_id new_title)
    (fun t => db_update_chat_title W t chat_id new_title).

Definition should_generate_title (chat_id : str) : M bool :=
  do current_title <- get_chat_title_by_id chat_id;
  if negb (startswith current_title NEW_CHAT_TITLE) then ret false
  else
    do histories <- get_chat_histories chat_id;
    if (2 <=? length histories)%nat then ret true else ret false.

Definition generate_chat_title (chat_id : str) : M str :=
  do histories <- get_chat_histories chat_id;
  let recent_messages := firstn 2 histories in
  let formatted_messages := format_chat_histories recent_messages in
  LangChainManager.generate_title W formatted_messages.

Definition refresh_from_db : M unit :=
  do l <- _load_chat_list_from_db;
  do _ <- modify (set_chat_list l);
  do _ <- modify (set_all_chat_histories ∅);
  do _ <- sync_chat_list;
  sync_all_chat_histories.

End Methods.
End ChatManager.

(** ** The document pipeline

    [DocumentProcessor] and the writing side of [ChromaManager], which
    [RAGManager] drives when documents are loaded.  They are collaborators
    as well; their calls are recorded in a trace of their own. *)

(** A chunk a document was split into. *)
Record DocChunk := { doc_text : str; doc_metadata : Metadata }.

Inductive PipelineEvent :=
  | ProcessPdf (pdf_path : str)
  | ProcessDirectory (documents_path : str)
  | AddDocuments (chunks : list DocChunk)
  | ClearCollection.

Record Pipeline := {
  process_pdf : list PipelineEvent -> str -> result (list DocChunk);
  process_directory : list PipelineEvent -> str -> result (list DocChunk);
  add_documents : list PipelineEvent -> list DocChunk -> result bool;
  clear_collection : list PipelineEvent -> result unit
}.

(** ** infrastructure/rag_manager.py *)

Module RAGManager.
Section Methods.
Variable W : World.

Definition query (self : RAGManager) (user_question : str)
  : M (list SearchHit * bool) :=
  call (SearchWithThreshold user_question (threshold self) TOP_K_RESULTS)
    (fun t =>
       search_with_threshold W t user_question (threshold self)
         TOP_K_RESULTS).

(** One entry of the context:
    "【参照資料i】(source / ページpage)", a line break, the text. *)
Definition context_part (i : nat) (result : SearchHit) : str :=
  let source :=
    default UNKNOWN_SOURCE (meta_source (metadata result)) in
  let page :=
    from_option format_meta (lit "?") (meta_page (metadata result)) in
  [12304; 21442; 29031; 36039; 26009] ++ str_of_int (Z.of_nat i)
    ++ [12305] ++ lit "(" ++ source ++ lit " / "
    ++ [12506; 12540; 12472] ++ page ++ lit ")" ++ [10] ++ text result.

(** [enumerate(search_results, start=i)] mapped to the entries. *)
Fixpoint context_parts (i : nat) (search_results : list SearchHit)
  : list str :=
  match search_results with
  | [] => []
  | r :: rest => context_part i r :: context_parts (S i) rest
  end.

Definition build_rag_context (search_results : list SearchHit) : str :=
  match search_results with
  | [] => []
  | _ => join [10; 10] (context_parts 1 search_results)
  end.

(** The f-string of [build_rag_prompt]; its continuation lines start
    with four spaces. *)
Definition build_rag_prompt (user_question context : str) : str :=
  lit "===== " ++ [21442; 29031; 36039; 26009] ++ lit " =====" ++ [10]
    ++ lit "    " ++ context ++ [10]
    ++ lit "    ====================" ++ [10]
    ++ [10]
    ++ lit "    "
    ++ [12518; 12540; 12470; 12540; 12398; 36074; 21839] ++ lit ": "
    ++ user_question.

Definition get_rag_response_data (self : RAGManager) (user_question : str)
  : M RagData :=
  do r <- query self user_question;
  let '(results, use_rag) := r in
  if negb use_rag then
    ret {| use_rag := false; context := []; prompt := [];
           search_results := [] |}
  else
    let context := build_rag_context results in
    let prompt := build_rag_prompt user_question context in
    ret {| use_rag := true; context := context; prompt := prompt;
           search_results := results |}.

End Methods.

Section Documents.
Variable D : Pipeline.

(** The methods below run against the pipeline alone: they take the calls
    made so far and return their result with the calls made since. *)
Definition process_and_store_pdf (pdf_path : str) (t : list PipelineEvent)
  : result bool * list PipelineEvent :=
  let t1 := t ++ [ProcessPdf pdf_path] in
  match process_pdf D t pdf_path with
  | Raise e => (Raise e, t1)
  | Ok [] => (Ok false, t1)
  | Ok chunks => (add_documents D t1 chunks, t1 ++ [AddDocuments chunks])
  end.

Definition process_all_pdfs (documents_path : str) (t : list PipelineEvent)
  : result bool * list PipelineEvent :=
  let t1 := t ++ [ProcessDirectory documents_path] in
  match process_directory D t documents_path with
  | Raise e => (Raise e, t1)
  | Ok [] => (Ok false, t1)
  | Ok all_chunks =>
      (add_documents D t1 all_chunks, t1 ++ [AddDocuments all_chunks])
  end.

Definition reload_documents (documents_path : str) (t : list PipelineEvent)
  : result bool * list PipelineEvent :=
  let t1 := t ++ [ClearCollection] in
  match clear_collection D t with
  | Raise e => (Raise e, t1)
  | Ok _ => process_all_pdfs documents_path t1
  end.

End Documents.
End RAGManager.

(** ** infrastructure/chroma_manager.py *)

(** The document index: the nearest-neighbour query of the collection,
    which answers with hits or fails. *)
Definition DocumentIndex : Type :=
  list Event -> str -> nat -> result (list SearchHit).

(** Modelled from the spec: [ChromaManager.search_with_threshold], whose
    module [infrastructure/chroma_manager.py] is not among the sources.
    It asks the index for [n_results] neighbours and reports, next to the
    hits, whether at least one of them has a distance of at most
    [threshold].  The spec gives the search no recovery: a failure of the
    index leaves it as the exception it is. *)
Definition chroma_search_with_threshold (index : DocumentIndex)
  (t : list Event) (query : str) (threshold : float) (n_results : nat)
  : result (list SearchHit * bool) :=
  match index t query n_results with
  | Ok hits =>
      Ok (hits, existsb (fun h => PrimFloat.leb (distance h) threshold) hits)
  | Raise e => Raise e
  end.

(** The world in which the Chroma manager is the one above. *)
Definition with_index (index : DocumentIndex) (W : World) : World :=
  {| db_get_all_chats := db_get_all_chats W;
     db_get_chat_history := db_get_chat_history W;
     db_save_message := db_save_message W;
     db_create_chat := db_create_chat W;
     db_update_chat_title := db_update_chat_title W;
     shortuuid_uuid := shortuuid_uuid W;
     title_chain_invoke := title_chain_invoke W;
     chain_stream := chain_stream W;
     rag_chain_stream := rag_chain_stream W;
     search_with_threshold := chroma_search_with_threshold index |}.

(** ** chat/gui.py *)

Module GUI.
Section Methods.
Variable W : World.

(** [st.session_state.current_chat] *)
Definition current_chat : M CurrentChat :=
  do s <- get_state;
  match ss_current_chat (session_state s) with
  | Some c => ret c
  | None => raise (AttributeError (lit "current_chat"))
  end.

(** [st.session_state.current_chat["id"]] *)
Definition current_chat_id : M str :=
  do c <- current_chat;
  match cc_id c with
  | Some i => ret i
  | None => raise (KeyError (lit "id"))
  end.

(** [st.session_state.current_chat["title"]] *)
Definition current_chat_title : M str :=
  do c <- current_chat;
  match cc_title c with
  | Some t => ret t
  | None => raise (KeyError (lit "title"))
  end.

(** [st.session_state.current_chat["id"] = i] *)
Definition set_current_chat_id (i : str) : M unit :=
  do c <- current_chat;
  modify (fun s =>
    set_session_state
      (set_ss_current_chat {| cc_id := Some i; cc_title := cc_title c |}
         (session_state s)) s).

(** [st.session_state.current_chat["title"] = t] *)
Definition set_current_chat_title (t : str) : M unit :=
  do c <- current_chat;
  modify (fun s =>
    set_session_state
      (set_ss_current_chat {| cc_id := cc_id c; cc_title := Some t |}
         (session_state s)) s).

(** Called by [__init__]. *)
Definition _initialize_session_state : M unit :=
  do s <- get_state;
  do _ <- match ss_current_chat (session_state s) with
          | Some _ => ret tt
          | None =>
              modify (fun s =>
                set_session_state
                  (set_ss_current_chat {| cc_id := None; cc_title := None |}
                     (session_state s)) s)
          end;
  do c <- current_chat;
  do _ <- match cc_id c with
          | Some _ => ret tt
          | None =>
              do s <- get_state;
              do i <- ChatManager.get_current_chat_id W (chat_list s);
              set_current_chat_id i
          end;
  do c <- current_chat;
  match cc_title c with
  | Some _ => ret tt
  | None =>
      do current_id <- current_chat_id;
      do t <- ChatManager.get_chat_title_by_id current_id;
      set_current_chat_title t
  end.

Definition _update_current_chat (new_id : str) : M unit :=
  do _ <- set_current_chat_id new_id;
  do t <- ChatManager.get_chat_title_by_id new_id;
  set_current_chat_title t.

Definition _add_user_message (user_input : str) : M unit :=
  do current_id <- current_chat_id;
  do chat_histories <- ChatManager.get_chat_histories W current_id;
  do _ <- match chat_histories with
          | [] =>
              do current_title <- current_chat_title;
              do _ <- call (DbCreateChat (Some current_id) current_title)
                        (fun t =>
                           db_create_chat W t (Some current_id)
                             current_title);
              ret tt
          | _ :: _ => ret tt
          end;
  ChatManager.add_message W current_id ROLE_USER user_input false None.

Definition _add_ai_message (ai_response : str) (is_rag : bool)
  (chunks : option (list ChunkRef)) : M unit :=
  do current_id <- current_chat_id;
  ChatManager.add_message W current_id ROLE_ASSISTANT ai_response is_rag
    chunks.

Definition _auto_generate_title_if_needed : M bool :=
  do current_id <- current_chat_id;
  do due <- ChatManager.should_generate_title W current_id;
  if negb due then ret false
  else
    try_except
      (do new_title <- ChatManager.generate_chat_title W current_id;
       do _ <- ChatManager.update_chat_title W current_id new_title;
       do _ <- set_current_chat_title new_title;
       ret true)
      (fun _ => ret false).

Definition _create_new_chat : M unit :=
  let new_title := NEW_CHAT_TITLE in
  do new_id <- call Uuid (fun t => Ok (shortuuid_uuid W t));
  let new_chat := {| id := new_id; title := new_title |} in
  do _ <- modify (fun s => set_chat_list (new_chat :: chat_list s) s);
  do _ <- modify (fun s =>
            set_all_chat_histories
              (<[new_id := []]> (all_chat_histories s)) s);
  do _ <- sync_chat_list;
  do _ <- sync_all_chat_histories;
  _update_current_chat new_id.

Definition _generate_rag_response (current_id rag_prompt : str) : M str :=
  do chat_histories <- ChatManager.get_chat_histories W current_id;
  let formatted_messages :=
    ChatManager.format_chat_histories (removelast chat_histories)
      ++ [LangChainManager.create_human_message rag_prompt] in
  do fragments <-
    LangChainManager.get_streaming_response_rag W formatted_messages;
  ret (concat fragments).

Definition _generate_normal_response (current_id : str) : M str :=
  do chat_histories <- ChatManager.get_chat_histories W current_id;
  let formatted_messages :=
    ChatManager.format_chat_histories chat_histories in
  do fragments <-
    LangChainManager.get_streaming_response W formatted_messages;
  ret (concat fragments).

Definition format_chunk (doc : SearchHit) : ChunkRef :=
  let md := metadata doc in
  {| chunk_id :=
       default [] (meta_source md) ++ lit "_"
         ++ from_option format_meta [] (meta_page md) ++ lit "_"
         ++ from_option format_meta [] (meta_chunk_index md);
     chunk_distance := distance doc;
     chunk_source := default UNKNOWN_SOURCE (meta_source md) |}.

Definition _format_chunks_for_save (search_results : list SearchHit)
  : list ChunkRef :=
  map format_chunk search_results.

(** Truth value of a list and of a string. *)
Definition nonempty {A} (l : list A) : bool :=
  match l with [] => false | _ :: _ => true end.

Definition _process_ai_response (user_input : str) : M unit :=
  do current_id <- current_chat_id;
  do s <- get_state;
  do rag_data <- match rag_manager s with
                 | Some rm =>
                     do d <- RAGManager.get_rag_response_data W rm
                               user_input;
                     ret (Some d)
                 | None => ret None
                 end;
  let use_rag := from_option use_rag false rag_data in
  let rag_context := from_option context [] rag_data in
  let search_results := from_option search_results [] rag_data in
  do full_response <-
    (if use_rag && nonempty rag_context then
       match rag_data with
       | Some d => _generate_rag_response current_id (prompt d)
       | None => raise (KeyError (lit "prompt"))
       end
     else _generate_normal_response current_id);
  let chunks_to_save :=
    if use_rag && nonempty search_results
    then Some (_format_chunks_for_save search_results)
    else None in
  _add_ai_message full_response use_rag chunks_to_save.

(** The part of [_render_chat_input] that follows [st.chat_input]:
    one turn.  The result tells whether [st.rerun()] is called. *)
Definition _render_chat_input (user_input : option str) : M bool :=
  match user_input with
  | None | Some [] => ret false
  | Some user_input =>
      do _ <- _add_user_message user_input;
      do _ <- _process_ai_response user_input;
      _auto_generate_title_if_needed
  end.

(** The generator expression of [_render_sidebar] that tells whether a
    listed chat has no message yet.  [any] stops at the first empty
    history, and every history it looks at is loaded when it was not. *)
Fixpoint has_empty_chat (l : list Chat) : M bool :=
  match l with
  | [] => ret false
  | chat :: rest =>
      do h <- ChatManager.get_chat_histories W (id chat);
      match h with
      | [] => ret true
      | _ :: _ => has_empty_chat rest
      end
  end.

(** The threshold slider of [_render_sidebar], on the two values it reads
    and writes: the manager and the [previous_threshold] entry of the
    session.  [new_threshold] is what the slider returns. *)
Definition update_threshold (rm : RAGManager)
  (previous_threshold : option float) (new_threshold : float)
  : RAGManager * float :=
  let previous := default (threshold rm) previous_threshold in
  if negb (PrimFloat.eqb new_threshold previous)
  then ({| threshold := new_threshold |}, new_threshold)
  else (rm, previous).

(** The branch [_render_response_mode_info] takes for a stored message:
    true for the notice of the RAG mode, false for the notice of the
    normal mode. *)
Definition _render_response_mode_info (chat : Message) : bool :=
  default false (is_rag chat) && ChatManager.chunks_truthy (chunks chat).

(** The branch [_render_search_results] takes right after the answer. *)
Definition _render_search_results (use_rag : bool)
  (search_results : list SearchHit) : bool :=
  use_rag && nonempty search_results.

End Methods.
End GUI.

(** [main.py]: the two constructors, in the order they are called. *)
Definition startup (W : World) : M unit :=
  do _ <- ChatManager._restore_from_session_state W;
  GUI._initialize_session_state W.

(** ** scripts/reload_documents.py *)

Module ReloadDocuments.

(** The class [[a-zA-Z0-9_-]]. *)
Definition is_id_char (c : N) : bool :=
  ((97 <=? c) && (c <=? 122)) || ((65 <=? c) && (c <=? 90))
  || ((48 <=? c) && (c <=? 57)) || (c =? 95) || (c =? 45).

(** The longest run of characters of the class at the start of [s]. *)
Fixpoint id_run (s : str) : str :=
  match s with
  | c :: s' => if is_id_char c then c :: id_run s' else []
  | [] => []
  end.

(** [re.search(r'folders/([a-zA-Z0-9_-]+)', url)] and its group 1: the
    leftmost place where "folders/" is followed by at least one character
    of the class, and the longest run of such characters there. *)
Fixpoint search_folders (url : str) : option str :=
  match url with
  | [] => None
  | _ :: rest =>
      if startswith url (lit "folders/") then
        match id_run (skipn 8 url) with
        | [] => search_folders rest
        | c :: run => Some (c :: run)
        end
      else search_folders rest
  end.

Definition get_folder_id_from_url (url : option str) : option str :=
  match url with
  | None | Some [] => None
  | Some u => search_folders u
  end.

End ReloadDocuments.

(** ** Client programs and sample worlds *)

(** Two reads of the same history with nothing in between. *)
Definition get_history_twice (W : World) (chat_id : str)
  : M (list Message * list Message) :=
  do h1 <- ChatManager.get_chat_histories W chat_id;
  do h2 <- ChatManager.get_chat_histories W chat_id;
  ret (h1, h2).

(** A store that holds nothing and accepts every write, an id generator
    that numbers its ids by the calls made so far, and chains that answer
    with fixed text. *)
Definition quiet_world : World :=
  {| db_get_all_chats := fun _ => Ok [];
     db_get_chat_history := fun _ _ => Ok [];
     db_save_message := fun _ _ _ _ _ _ => Ok tt;
     db_create_chat := fun _ i _ => Ok i;
     db_update_chat_title := fun _ _ _ => Ok tt;
     shortuuid_uuid := fun t => lit "local" ++ str_of_int (Z.of_nat (length t));
     title_chain_invoke :=
       fun _ _ => Ok (lit "  A title that runs past the limit  ");
     chain_stream := fun _ _ => Ok [lit "Hel"; lit "lo"];
     rag_chain_stream := fun _ _ => Ok [lit "From "; lit "the files"];
     search_with_threshold := fun _ _ _ _ => Ok ([], false) |}.

(** The same, but every call to the store raises. *)
Definition offline_world : World :=
  {| db_get_all_chats := fun _ => Raise (Exception (lit "offline"));
     db_get_chat_history := fun _ _ => Raise (Exception (lit "offline"));
     db_save_message := fun _ _ _ _ _ _ => Raise (Exception (lit "offline"));
     db_create_chat := fun _ _ _ => Raise (Exception (lit "offline"));
     db_update_chat_title := fun _ _ _ => Raise (Exception (lit "offline"));
     shortuuid_uuid := shortuuid_uuid quiet_world;
     title_chain_invoke := title_chain_invoke quiet_world;
     chain_stream := chain_stream quiet_world;
     rag_chain_stream := rag_chain_stream quiet_world;
     search_with_threshold := search_with_threshold quiet_world |}.

Definition hit (d : float) : SearchHit :=
  {| text := lit "clause";
     distance := d;
     metadata := {| meta_source := Some (lit "rules.pdf");
                    meta_page := Some (MetaInt 4);
                    meta_chunk_index := Some (MetaInt 0) |} |}.

(** An index that answers every query with three hits at distances 0.9,
    1.3 and 1.8, and one that is out of order. *)
Definition three_hits : DocumentIndex :=
  fun _ _ _ => Ok [hit 0.9; hit 1.3; hit 1.8].

Definition broken_index : DocumentIndex :=
  fun _ _ _ => Raise (Exception (lit "index unavailable")).

Definition default_rag : RAGManager := {| threshold := RAG_THRESHOLD |}.

(** An index whose hits are all beyond the threshold of the settings. *)
Definition far_hits : DocumentIndex :=
  fun _ _ _ => Ok [hit 1.3; hit 1.8].

(** The quiet world with a Chroma manager whose search raises. *)
Definition failing_search_world : World :=
  {| db_get_all_chats := db_get_all_chats quiet_world;
     db_get_chat_history := db_get_chat_history quiet_world;
     db_save_message := db_save_message quiet_world;
     db_create_chat := db_create_chat quiet_world;
     db_update_chat_title := db_update_chat_title quiet_world;
     shortuuid_uuid := shortuuid_uuid quiet_world;
     title_chain_invoke := title_chain_invoke quiet_world;
     chain_stream := chain_stream quiet_world;
     rag_chain_stream := rag_chain_stream quiet_world;
     search_with_threshold :=
       fun _ _ _ _ => Raise (Exception (lit "index unavailable")) |}.

Definition user_says (c : str) : Message :=
  {| role := ROLE_USER; content := c; is_rag := None; chunks := None |}.

Definition assistant_says (c : str) : Message :=
  {| role := ROLE_ASSISTANT; content := c; is_rag := Some false;
     chunks := None |}.

(** A session with one conversation [chat_id] titled [t] whose cached
    history is [h], selected as the current one. *)
Definition one_chat (chat_id t : str) (h : list Message)
  (rag : option RAGManager) : State :=
  let l := [{| id := chat_id; title := t |}] in
  let hs : gmap str (list Message) := {[ chat_id := h ]} in
  {| chat_list := l;
     all_chat_histories := hs;
     session_state :=
       {| ss_chat_list := Some l;
          ss_all_chat_histories := Some hs;
          ss_current_chat :=
            Some {| cc_id := Some chat_id; cc_title := Some t |} |};
     rag_manager := rag;
     trace := [] |}.

(** ** Outcomes

    The states and values in terms of which the properties below describe
    what a method leaves behind. *)

(** The state a successful remote read of a history leaves. *)
Definition history_loaded (chat_id : str) (h : list Message) (s : State)
  : State :=
  let hs := <[chat_id := h]> (all_chat_histories s) in
  {| chat_list := chat_list s;
     all_chat_histories := hs;
     session_state := set_ss_all_chat_histories hs (session_state s);
     rag_manager := rag_manager s;
     trace := trace s ++ [DbGetChatHistory chat_id] |}.

(** The [is_rag] argument [add_message] passes to the store. *)
Definition is_rag_argument (role : str) (is_rag : bool) : option bool :=
  if decide (role = ROLE_ASSISTANT) then Some is_rag else None.

(** The state [add_message] leaves, whatever the store answers. *)
Definition message_appended (chat_id role content : str) (is_rag : bool)
  (chunks : option (list ChunkRef)) (s : State) : State :=
  let m := ChatManager.build_message role content is_rag chunks in
  let hs :=
    <[chat_id := default [] (all_chat_histories s !! chat_id) ++ [m]]>
      (all_chat_histories s) in
  {| chat_list := chat_list s;
     all_chat_histories := hs;
     session_state := set_ss_all_chat_histories hs (session_state s);
     rag_manager := rag_manager s;
     trace :=
       trace s ++ [DbSaveMessage chat_id role content
                     (is_rag_argument role is_rag) chunks] |}.

(** The state the constructor leaves when it has fetched the list [l]. *)
Definition list_fetched (l : list Chat) (s : State) : State :=
  {| chat_list := l;
     all_chat_histories := ∅;
     session_state :=
       {| ss_chat_list := Some l;
          ss_all_chat_histories := Some ∅;
          ss_current_chat := ss_current_chat (session_state s) |};
     rag_manager := rag_manager s;
     trace := trace s ++ [DbGetAllChats] |}.

(** The state in which [chat_id] with title [t] is the current chat. *)
Definition current_selected (chat_id t : str) (s : State) : State :=
  set_session_state
    (set_ss_current_chat {| cc_id := Some chat_id; cc_title := Some t |}
       (session_state s)) s.

(** The translation of a message whose role is one of the two. *)
Definition as_lc_message (m : Message) : LCMessage :=
  if decide (role m = ROLE_USER) then HumanMessage (content m)
  else AIMessage (content m).

(** Whether [format_chat_histories] translates the message. *)
Definition known_role (m : Message) : bool :=
  bool_decide (role m = ROLE_USER) || bool_decide (role m = ROLE_ASSISTANT).

(** The state in which [new_chat] has been put in front of the list with
    an empty history, after the calls [t]. *)
Definition chat_created (new_chat : Chat) (t : list Event) (s : State)
  : State :=
  let l := new_chat :: chat_list s in
  let hs := <[id new_chat := []]> (all_chat_histories s) in
  {| chat_list := l;
     all_chat_histories := hs;
     session_state :=
       {| ss_chat_list := Some l;
          ss_all_chat_histories := Some hs;
          ss_current_chat := ss_current_chat (session_state s) |};
     rag_manager := rag_manager s;
     trace := t |}.

(** The session store holds what the manager holds: the condition under
    which a rerun of the script, which builds a new [ChatManager] from the
    session store, finds the data again. *)
Definition synced (s : State) : Prop :=
  ss_chat_list (session_state s) = Some (chat_list s) /\
  ss_all_chat_histories (session_state s) = Some (all_chat_histories s).

(** A method keeps the two in step, whether it returns or raises. *)
Definition keeps_synced {A} (m : M A) : Prop :=
  forall s, synced s -> synced (m s).2.

(** ** Properties *)

(** *** Strings *)

Lemma startswith_prefix (p s : str) :
  startswith s p = true <-> exists r, s = p ++ r.
Proof.
  revert s. induction p as [|c p IH]; intros s; simpl.
  - split; [intros _; by exists s | done].
  - destruct s as [|d s].
    + split; [done | intros [r Hr]; discriminate].
    + destruct (decide (c = d)) as [->|Hne].
      * rewrite IH. split; intros [r Hr]; exists r; simpl in *; congruence.
      * split; [done | intros [r Hr]; simpl in Hr; congruence].
Qed.

Lemma trim_title_firstn (g : str) :
  LangChainManager.trim_title g = firstn TITLE_MAX_LENGTH (strip g).
Proof.
  unfold LangChainManager.trim_title.
  destruct (Nat.ltb_spec TITLE_MAX_LENGTH (length (strip g))) as [H|H];
    [done | by rewrite firstn_all2].
Qed.

Lemma trim_title_length (g : str) :
  (length (LangChainManager.trim_title g) <= TITLE_MAX_LENGTH)%nat.
Proof. rewrite trim_title_firstn. apply firstn_le_length. Qed.

(** *** The cache of histories *)

Lemma get_chat_histories_cached (W : World) (chat_id : str) (s : State)
  (h : list Message) :
  all_chat_histories s !! chat_id = Some h ->
  ChatManager.get_chat_histories W chat_id s = (Ok h, s).
Proof.
  intros Hc. unfold ChatManager.get_chat_histories, bind, get_state.
  by rewrite Hc.
Qed.

Lemma get_chat_histories_miss (W : World) (chat_id : str) (s : State) :
  all_chat_histories s !! chat_id = None ->
  ChatManager.get_chat_histories W chat_id s =
    match db_get_chat_history W (trace s) chat_id with
    | Ok h => (Ok h, history_loaded chat_id h s)
    | Raise e => (Raise e, set_trace (trace s ++ [DbGetChatHistory chat_id]) s)
    end.
Proof.
  intros Hc.
  unfold ChatManager.get_chat_histories, bind, get_state, call.
  rewrite Hc. by destruct (db_get_chat_history W (trace s) chat_id).
Qed.

(** C2. Reading a history twice in a row, with no mutation and no refresh
    in between, makes at most one remote read (none when the history is
    cached, one otherwise), and when the reads return they return the same
    sequence: a cached history is returned by both, a fetched history is
    stored and returned by both, and the pair of reads raises only when
    that single fetch raises. *)
Theorem get_chat_histories_twice (W : World) (chat_id : str) (s : State) :
  let run := get_history_twice W chat_id s in
  (exists evs,
      trace run.2 = trace s ++ evs /\
      (count_events is_remote_read evs <= 1)%nat /\
      evs = match all_chat_histories s !! chat_id with
            | Some _ => []
            | None => [DbGetChatHistory chat_id]
            end) /\
  (forall h1 h2, run.1 = Ok (h1, h2) -> h1 = h2) /\
  match all_chat_histories s !! chat_id with
  | Some h => run.1 = Ok (h, h)
  | None =>
      match db_get_chat_history W (trace s) chat_id with
      | Ok h =>
          run.1 = Ok (h, h) /\ all_chat_histories run.2 !! chat_id = Some h
      | Raise e => run.1 = Raise e
      end
  end.
Proof.
  cbv zeta. unfold get_history_twice, bind.
  destruct (all_chat_histories s !! chat_id) as [h|] eqn:Hc.
  - rewrite (get_chat_histories_cached _ _ _ _ Hc). cbv beta iota.
    rewrite (get_chat_histories_cached _ _ _ _ Hc). cbn.
    split; [|split; [intros ? ? ?; congruence | done]].
    exists []. rewrite app_nil_r. split; [done | split; [|done]].
    unfold count_events. simpl. lia.
  - rewrite (get_chat_histories_miss _ _ _ Hc).
    destruct (db_get_chat_history W (trace s) chat_id) as [h|e].
    + assert (Hl : all_chat_histories (history_loaded chat_id h s) !! chat_id
                   = Some h) by apply lookup_insert_eq.
      cbv beta iota. rewrite (get_chat_histories_cached _ _ _ _ Hl). cbn.
      split; [|split; [intros ? ? ?; congruence
                      | by rewrite lookup_insert_eq]].
      eexists. split; [reflexivity | split; [|reflexivity]].
      unfold count_events. simpl. lia.
    + cbn. split; [|split; [done | done]].
      eexists. split; [reflexivity | split; [|reflexivity]].
      unfold count_events. simpl. lia.
Qed.

(** *** Appending a message *)

Lemma add_message_run (W : World) (chat_id role content : str)
  (is_rag : bool) (chunks : option (list ChunkRef)) (s : State) :
  ChatManager.add_message W chat_id role content is_rag chunks s =
    (db_save_message W (trace s) chat_id role content
       (is_rag_argument role is_rag) chunks,
     message_appended chat_id role content is_rag chunks s).
Proof.
  unfold ChatManager.add_message, message_appended, is_rag_argument,
    bind, modify, sync_all_chat_histories, call.
  cbn. destruct (all_chat_histories s !! chat_id) as [h|] eqn:Hc; cbn.
  - by rewrite Hc.
  - by rewrite lookup_insert_eq, insert_insert_eq.
Qed.

Lemma build_message_role_content (r c : str) (rag : bool)
  (given : option (list ChunkRef)) :
  role (ChatManager.build_message r c rag given) = r /\
  content (ChatManager.build_message r c rag given) = c.
Proof.
  unfold ChatManager.build_message.
  by destruct (decide (r = ROLE_ASSISTANT)).
Qed.

(** C3. [add_message] appends the message, which has the role and the
    content it was given, to the history held in memory, starting from an
    empty history when the id has none, and the state it leaves does not
    depend on what the remote write answers: the outcome of the call is
    the outcome of that write, issued once and after the append, and
    whether it returned or raised a read of the history that follows
    returns the previous history with the message at its end, from
    memory. *)
Theorem add_message_then_get (W : World) (chat_id r c : str)
  (rag : bool) (given : option (list ChunkRef)) (s : State) :
  let m := ChatManager.build_message r c rag given in
  let previous := default [] (all_chat_histories s !! chat_id) in
  let run := ChatManager.add_message W chat_id r c rag given s in
  role m = r /\
  content m = c /\
  run.1 = db_save_message W (trace s) chat_id r c
            (is_rag_argument r rag) given /\
  run.2 = message_appended chat_id r c rag given s /\
  all_chat_histories run.2 !! chat_id = Some (previous ++ [m]) /\
  ss_all_chat_histories (session_state run.2) = Some (all_chat_histories run.2) /\
  trace run.2 = trace s ++ [DbSaveMessage chat_id r c
                              (is_rag_argument r rag) given] /\
  ChatManager.get_chat_histories W chat_id run.2 = (Ok (previous ++ [m]), run.2).
Proof.
  cbv zeta. rewrite add_message_run. cbn [fst snd].
  assert (Hl : all_chat_histories
                 (message_appended chat_id r c rag given s) !! chat_id
               = Some (default [] (all_chat_histories s !! chat_id)
                         ++ [ChatManager.build_message r c rag given]))
    by apply lookup_insert_eq.
  destruct (build_message_role_content r c rag given) as [Hr Hc].
  repeat split; try done.
  by apply get_chat_histories_cached.
Qed.

(** The append is kept when the remote write fails: in a world whose
    store raises on every call, the message is in memory after the call
    has raised. *)
Example add_message_offline :
  let s := one_chat (lit "c1") NEW_CHAT_TITLE [] None in
  let run :=
    ChatManager.add_message offline_world (lit "c1") ROLE_USER (lit "hi")
      false None s in
  run.1 = Raise (Exception (lit "offline")) /\
  all_chat_histories run.2 !! lit "c1" = Some [user_says (lit "hi")].
Proof. cbv zeta. rewrite add_message_run. split; reflexivity. Qed.

(** *** The fields of a stored message *)

Lemma role_user_not_assistant : ROLE_USER <> ROLE_ASSISTANT.
Proof. discriminate. Qed.

(** C9. The message [add_message] builds and stores has a [chunks] field
    exactly when the role is assistant, [is_rag] is true and a non-empty
    list of chunks was passed, and then the field is that list.  An
    assistant message with [is_rag] false has no [chunks] field, and a
    message of another role, a user message in particular, has neither an
    [is_rag] nor a [chunks] field. *)
Theorem stored_message_fields (W : World) (chat_id r c : str)
  (rag : bool) (given : option (list ChunkRef)) (s : State) :
  let m := ChatManager.build_message r c rag given in
  let run := ChatManager.add_message W chat_id r c rag given s in
  all_chat_histories run.2 !! chat_id
    = Some (default [] (all_chat_histories s !! chat_id) ++ [m]) /\
  (is_Some (chunks m) <->
     r = ROLE_ASSISTANT /\ rag = true /\ exists x xs, given = Some (x :: xs)) /\
  (is_Some (chunks m) -> chunks m = given) /\
  (is_Some (is_rag m) <-> r = ROLE_ASSISTANT) /\
  (r = ROLE_ASSISTANT -> rag = false ->
     is_rag m = Some false /\ chunks m = None) /\
  (r <> ROLE_ASSISTANT -> is_rag m = None /\ chunks m = None) /\
  (r = ROLE_USER -> is_rag m = None /\ chunks m = None).
Proof.
  cbv zeta. rewrite add_message_run. cbn [fst snd].
  unfold message_appended at 1. cbn [all_chat_histories].
  split; [apply lookup_insert_eq|].
  unfold ChatManager.build_message.
  destruct (decide (r = ROLE_ASSISTANT)) as [Hr|Hr]; cbn [chunks is_rag].
  - assert (Hu : r <> ROLE_USER)
      by (rewrite Hr; apply not_eq_sym, role_user_not_assistant).
    destruct rag, given as [[|x xs]|];
      cbn [andb ChatManager.chunks_truthy];
      repeat split; try done; try (by intros [? ?]); try (by eauto);
      try (intros (_ & _ & ? & ? & ?); done);
      try (intros (_ & ? & _); done).
  - repeat split; try done; try (by intros [? ?]);
      try (by intros (? & _)).
Qed.

(** *** The constructor *)

Lemma restore_from_session_state_run (W : World) (s : State) :
  ChatManager._restore_from_session_state W s =
    match ss_chat_list (session_state s) with
    | Some l =>
        (Ok tt,
         set_all_chat_histories
           (default ∅ (ss_all_chat_histories (session_state s)))
           (set_chat_list l s))
    | None =>
        match db_get_all_chats W (trace s) with
        | Ok l => (Ok tt, list_fetched l s)
        | Raise e => (Raise e, set_trace (trace s ++ [DbGetAllChats]) s)
        end
    end.
Proof.
  unfold ChatManager._restore_from_session_state,
    ChatManager._load_chat_list_from_db, sync_chat_list,
    sync_all_chat_histories, bind, get_state, modify, call.
  destruct (ss_chat_list (session_state s)) as [l|]; [done|].
  by destruct (db_get_all_chats W (trace s)).
Qed.

(** C4. When the session store holds a conversation list, the constructor
    takes that list and the histories stored next to it (no histories when
    none are stored) as they are, calls nothing outside the process and
    leaves the session store as it found it.  Only when the store holds no
    list does it make one remote call, the fetch of the conversation list
    and of no history, after which the fetched list and an empty history
    map are both the attributes and the entries of the session store; when
    that fetch raises, so does the constructor, and nothing is written. *)
Theorem restore_from_session_state_adopts (W : World) (s : State) :
  let run := ChatManager._restore_from_session_state W s in
  match ss_chat_list (session_state s) with
  | Some l =>
      run.1 = Ok tt /\
      chat_list run.2 = l /\
      all_chat_histories run.2
        = default ∅ (ss_all_chat_histories (session_state s)) /\
      session_state run.2 = session_state s /\
      trace run.2 = trace s
  | None =>
      trace run.2 = trace s ++ [DbGetAllChats] /\
      match db_get_all_chats W (trace s) with
      | Ok l => run.1 = Ok tt /\ run.2 = list_fetched l s
      | Raise e =>
          run.1 = Raise e /\
          session_state run.2 = session_state s /\
          chat_list run.2 = chat_list s /\
          all_chat_histories run.2 = all_chat_histories s
      end
  end.
Proof.
  cbv zeta. rewrite restore_from_session_state_run.
  destruct (ss_chat_list (session_state s)) as [l|]; [done|].
  by destruct (db_get_all_chats W (trace s)).
Qed.

(** A session that already holds a list and a history is adopted without
    a call to a store that would raise. *)
Example restore_adopts_session :
  let s := one_chat (lit "c1") (lit "Loans") [user_says (lit "hi")] None in
  ChatManager._restore_from_session_state offline_world
    (set_all_chat_histories ∅ (set_chat_list [] s)) = (Ok tt, s).
Proof. reflexivity. Qed.

(** *** The conversation selected when a session starts *)

Lemma title_by_id_absent (l : list Chat) (chat_id : str) :
  chat_id ∉ map id l ->
  ChatManager.title_by_id l chat_id = UNKNOWN_CHAT_TITLE.
Proof.
  induction l as [|c l IH]; [done|].
  cbn [map ChatManager.title_by_id]. intros Hn.
  apply not_elem_of_cons in Hn as [Hne Hn].
  destruct (decide (id c = chat_id)); [congruence | auto].
Qed.

Lemma initialize_session_state_run (W : World) (s : State) :
  ss_current_chat (session_state s) = None ->
  GUI._initialize_session_state W s =
    match chat_list s with
    | [] =>
        (Ok tt,
         current_selected (shortuuid_uuid W (trace s)) UNKNOWN_CHAT_TITLE
           (set_trace (trace s ++ [Uuid]) s))
    | c :: _ => (Ok tt, current_selected (id c) (title c) s)
    end.
Proof.
  intros Hc.
  unfold GUI._initialize_session_state, GUI.set_current_chat_id,
    GUI.set_current_chat_title, GUI.current_chat_id, GUI.current_chat,
    ChatManager.get_current_chat_id, ChatManager.get_chat_title_by_id,
    bind, get_state, modify, call, ret.
  rewrite Hc. cbn.
  destruct (chat_list s) as [|c l] eqn:Hl; cbn; rewrite ?Hl; cbn.
  - done.
  - destruct (decide (id c = id c)); [done | congruence].
Qed.

(** C10. At the start of a session (nothing in the session store), when
    the store answers with an empty conversation list the current id is
    the identifier [shortuuid] generates then: it is in neither the
    conversation list nor the history map, both of which are still empty
    afterwards, no remote record is created for it, and the title kept for
    it is the one of an unknown conversation.  When the store answers with
    a non-empty list the current id and title are those of its first
    entry. *)
Theorem startup_current_chat (W : World) (rag : option RAGManager) :
  let run := startup W (session_start rag) in
  match db_get_all_chats W [] with
  | Ok [] =>
      let new_id := shortuuid_uuid W [DbGetAllChats] in
      run.1 = Ok tt /\
      ss_current_chat (session_state run.2)
        = Some {| cc_id := Some new_id;
                  cc_title := Some UNKNOWN_CHAT_TITLE |} /\
      chat_list run.2 = [] /\
      all_chat_histories run.2 = ∅ /\
      (new_id ∉ map id (chat_list run.2)) /\
      all_chat_histories run.2 !! new_id = None /\
      ChatManager.get_chat_title_by_id new_id run.2
        = (Ok UNKNOWN_CHAT_TITLE, run.2) /\
      trace run.2 = [DbGetAllChats; Uuid]
  | Ok (c :: l) =>
      run.1 = Ok tt /\
      ss_current_chat (session_state run.2)
        = Some {| cc_id := Some (id c); cc_title := Some (title c) |} /\
      chat_list run.2 = c :: l /\
      all_chat_histories run.2 = ∅ /\
      trace run.2 = [DbGetAllChats]
  | Raise e => run.1 = Raise e
  end.
Proof.
  cbv zeta. unfold startup, bind.
  rewrite restore_from_session_state_run.
  cbn [session_start session_state ss_chat_list empty_session trace app].
  destruct (db_get_all_chats W []) as [[|c l]|e]; [| |done].
  - rewrite initialize_session_state_run by done. cbn.
    repeat split; try done. apply not_elem_of_nil.
  - by rewrite initialize_session_state_run.
Qed.

(** *** Ids that are not known *)

Lemma retitle_absent (l : list Chat) (chat_id new_title : str) :
  chat_id ∉ map id l -> ChatManager.retitle l chat_id new_title = l.
Proof.
  induction l as [|c l IH]; [done|].
  cbn [map ChatManager.retitle]. intros Hn.
  apply not_elem_of_cons in Hn as [Hne Hn].
  destruct (decide (id c = chat_id)); [congruence | by rewrite IH].
Qed.

Lemma update_chat_title_run (W : World) (chat_id new_title : str)
  (s : State) :
  ChatManager.update_chat_title W chat_id new_title s =
    (db_update_chat_title W (trace s) chat_id new_title,
     let l := ChatManager.retitle (chat_list s) chat_id new_title in
     {| chat_list := l;
        all_chat_histories := all_chat_histories s;
        session_state := set_ss_chat_list l (session_state s);
        rag_manager := rag_manager s;
        trace := trace s ++ [DbUpdateChatTitle chat_id new_title] |}).
Proof. reflexivity. Qed.

(** C6, as the specification states it, fails: in a world whose store
    holds no conversation and accepts every write, appending a message to
    and retitling an id that is in neither the list, the cache nor the
    store both return, while the title lookup answers with the title of an
    unknown conversation. *)
Lemma mutation_of_unknown_id_returns :
  let s := session_start None in
  let ghost := lit "ghost" in
  (ghost ∉ map id (chat_list s)) /\
  all_chat_histories s !! ghost = None /\
  db_get_all_chats quiet_world (trace s) = Ok [] /\
  db_get_chat_history quiet_world (trace s) ghost = Ok [] /\
  ChatManager.get_chat_title_by_id ghost s = (Ok UNKNOWN_CHAT_TITLE, s) /\
  (ChatManager.add_message quiet_world ghost ROLE_USER (lit "hi") false
     None s).1 = Ok tt /\
  (ChatManager.update_chat_title quiet_world ghost (lit "Loans") s).1
    = Ok tt.
Proof.
  cbv zeta. rewrite add_message_run, update_chat_title_run.
  repeat split; try done. apply not_elem_of_nil.
Qed.

(** C6, amended. For an id that is neither in the conversation list nor
    in the history map, the title lookup returns the title of an unknown
    conversation, changes nothing and calls nothing.  [add_message] and
    [update_chat_title] do not raise of their own accord on such an id: the
    first creates the history, holding the message alone, the second
    leaves the list as it was, and each then makes its remote write and
    returns or raises as that write does. *)
Theorem unknown_id_operations (W : World) (s : State)
  (chat_id r c new_title : str) (rag : bool)
  (given : option (list ChunkRef)) :
  chat_id ∉ map id (chat_list s) ->
  all_chat_histories s !! chat_id = None ->
  ChatManager.get_chat_title_by_id chat_id s = (Ok UNKNOWN_CHAT_TITLE, s) /\
  (let run := ChatManager.add_message W chat_id r c rag given s in
   run.1 = db_save_message W (trace s) chat_id r c (is_rag_argument r rag)
             given /\
   all_chat_histories run.2 !! chat_id
     = Some [ChatManager.build_message r c rag given] /\
   chat_list run.2 = chat_list s) /\
  (let run := ChatManager.update_chat_title W chat_id new_title s in
   run.1 = db_update_chat_title W (trace s) chat_id new_title /\
   chat_list run.2 = chat_list s /\
   all_chat_histories run.2 = all_chat_histories s).
Proof.
  intros Hl Hh. cbv zeta.
  rewrite add_message_run, update_chat_title_run. cbn [fst snd].
  unfold ChatManager.get_chat_title_by_id, bind, get_state, ret.
  rewrite (title_by_id_absent _ _ Hl), (retitle_absent _ _ _ Hl).
  unfold message_appended. cbn [all_chat_histories chat_list].
  rewrite lookup_insert_eq, Hh. done.
Qed.

Lemma unknown_id_operations_witness :
  let s := one_chat (lit "c1") NEW_CHAT_TITLE [] None in
  let ghost := lit "ghost" in
  ChatManager.get_chat_title_by_id ghost s = (Ok UNKNOWN_CHAT_TITLE, s) /\
  (let run :=
     ChatManager.add_message offline_world ghost ROLE_USER (lit "hi") false
       None s in
   run.1 = Raise (Exception (lit "offline")) /\
   all_chat_histories run.2 !! ghost = Some [user_says (lit "hi")] /\
   chat_list run.2 = chat_list s) /\
  (let run :=
     ChatManager.update_chat_title offline_world ghost (lit "Loans") s in
   run.1 = Raise (Exception (lit "offline")) /\
   chat_list run.2 = chat_list s /\
   all_chat_histories run.2 = all_chat_histories s).
Proof.
  apply (unknown_id_operations offline_world
           (one_chat (lit "c1") NEW_CHAT_TITLE [] None)
           (lit "ghost") ROLE_USER (lit "hi") (lit "Loans") false None).
  - vm_compute. intros H. apply list_elem_of_In in H.
    destruct H as [H|[]]. discriminate.
  - reflexivity.
Defined.

(** *** Titles *)

Lemma should_generate_title_run (W : World) (chat_id : str) (s : State) :
  ChatManager.should_generate_title W chat_id s =
    if startswith (ChatManager.title_by_id (chat_list s) chat_id)
         NEW_CHAT_TITLE
    then
      match ChatManager.get_chat_histories W chat_id s with
      | (Ok h, s') => (Ok (2 <=? length h)%nat, s')
      | (Raise e, s') => (Raise e, s')
      end
    else (Ok false, s).
Proof.
  unfold ChatManager.should_generate_title,
    ChatManager.get_chat_title_by_id, bind at 1 2, get_state, ret.
  destruct (startswith _ NEW_CHAT_TITLE); cbn [negb]; [|done].
  unfold bind.
  destruct (ChatManager.get_chat_histories W chat_id s) as [[h|e] s'];
    [|done].
  by destruct (2 <=? length h)%nat.
Qed.

Lemma title_by_id_first (before after : list Chat) (c : Chat)
  (chat_id : str) :
  id c = chat_id ->
  chat_id ∉ map id before ->
  ChatManager.title_by_id (before ++ c :: after) chat_id = title c.
Proof.
  intros Hc. induction before as [|d before IH]; cbn [map app].
  - intros _. cbn [ChatManager.title_by_id].
    destruct (decide (id c = chat_id)); [done | congruence].
  - intros Hn. apply not_elem_of_cons in Hn as [Hne Hn].
    cbn [ChatManager.title_by_id].
    destruct (decide (id d = chat_id)); [congruence | by apply IH].
Qed.

(** C7. [should_generate_title] answers true exactly when the title of the
    conversation, that is the title of the first entry of the list with
    the id, starts with "新規チャット" and its history holds at least two
    messages.  For a sentinel-titled conversation it answers false when
    the history holds one message and true when it holds two.  With a
    title that does not start so it answers false without looking at the
    history, whatever its length; so it does for an id that is not in the
    list. *)
Theorem should_generate_title_iff (W : World) (chat_id : str) (s : State) :
  let current_title := ChatManager.title_by_id (chat_list s) chat_id in
  let run := ChatManager.should_generate_title W chat_id s in
  ((~ exists rest, current_title = NEW_CHAT_TITLE ++ rest) ->
     run = (Ok false, s)) /\
  (forall h,
     (ChatManager.get_chat_histories W chat_id s).1 = Ok h ->
     exists b,
       run.1 = Ok b /\
       (b = true <->
          (exists rest, current_title = NEW_CHAT_TITLE ++ rest) /\
          (2 <= length h)%nat)) /\
  (chat_id ∉ map id (chat_list s) -> run = (Ok false, s)) /\
  (forall before c after,
     chat_list s = before ++ c :: after ->
     id c = chat_id ->
     chat_id ∉ map id before ->
     current_title = title c /\
     ((~ exists rest, title c = NEW_CHAT_TITLE ++ rest) ->
        run = (Ok false, s)) /\
     forall h,
       (ChatManager.get_chat_histories W chat_id s).1 = Ok h ->
       (run.1 = Ok true <->
          (exists rest, title c = NEW_CHAT_TITLE ++ rest) /\
          (2 <= length h)%nat) /\
       (run.1 = Ok true \/ run.1 = Ok false) /\
       ((exists rest, title c = NEW_CHAT_TITLE ++ rest) ->
          length h = 1%nat -> run.1 = Ok false) /\
       ((exists rest, title c = NEW_CHAT_TITLE ++ rest) ->
          length h = 2%nat -> run.1 = Ok true)).
Proof.
  cbv zeta.
  assert (HA : (~ exists rest,
                  ChatManager.title_by_id (chat_list s) chat_id
                  = NEW_CHAT_TITLE ++ rest) ->
               ChatManager.should_generate_title W chat_id s
               = (Ok false, s)).
  { intros Hn. rewrite should_generate_title_run.
    destruct (startswith _ NEW_CHAT_TITLE) eqn:Hp; [|done].
    apply startswith_prefix in Hp. by destruct Hn. }
  assert (HB : forall h,
             (ChatManager.get_chat_histories W chat_id s).1 = Ok h ->
             (ChatManager.should_generate_title W chat_id s).1
             = Ok (startswith
                     (ChatManager.title_by_id (chat_list s) chat_id)
                     NEW_CHAT_TITLE && (2 <=? length h)%nat)).
  { intros h Hh. rewrite should_generate_title_run.
    destruct (startswith _ NEW_CHAT_TITLE); [|done].
    destruct (ChatManager.get_chat_histories W chat_id s) as [[h'|e] s'];
      cbn in Hh; [|done].
    by injection Hh as ->. }
  assert (HC : forall (h : list Message) b,
             (startswith (ChatManager.title_by_id (chat_list s) chat_id)
                NEW_CHAT_TITLE && (2 <=? length h)%nat) = b ->
             (b = true <->
                (exists rest,
                   ChatManager.title_by_id (chat_list s) chat_id
                   = NEW_CHAT_TITLE ++ rest) /\ (2 <= length h)%nat)).
  { intros h b <-.
    rewrite andb_true_iff, Nat.leb_le. by rewrite startswith_prefix. }
  split; [exact HA|]. split.
  { intros h Hh. eexists. split; [by apply HB|]. by apply HC. }
  split.
  { intros Hn. apply HA. rewrite (title_by_id_absent _ _ Hn).
    intros H. apply startswith_prefix in H. discriminate. }
  intros before c after Hl Hc Hn.
  assert (Ht : ChatManager.title_by_id (chat_list s) chat_id = title c)
    by (rewrite Hl; by apply title_by_id_first).
  rewrite Ht in HA, HB, HC.
  split; [done|]. split; [exact HA|].
  intros h Hh. rewrite (HB h Hh).
  split.
  { split.
    - intros [= Hb]. by apply (HC h true).
    - intros Hp. f_equal. by apply (HC h _ eq_refl). }
  split; [by destruct (_ && _); [left | right]|].
  split.
  - intros _ Hlen. rewrite Hlen. by rewrite andb_false_r.
  - intros Hp Hlen. rewrite Hlen. apply startswith_prefix in Hp.
    by rewrite Hp.
Qed.

(** The three cases the specification lists. *)
Example title_not_due_after_one_message :
  ChatManager.should_generate_title quiet_world (lit "c1")
    (one_chat (lit "c1") NEW_CHAT_TITLE [user_says (lit "hi")] None)
  = (Ok false,
     one_chat (lit "c1") NEW_CHAT_TITLE [user_says (lit "hi")] None).
Proof. reflexivity. Qed.

Example title_due_after_two_messages :
  (ChatManager.should_generate_title quiet_world (lit "c1")
     (one_chat (lit "c1") (NEW_CHAT_TITLE ++ lit " 2")
        [user_says (lit "hi"); assistant_says (lit "hello")] None)).1
  = Ok true.
Proof. reflexivity. Qed.

Example title_not_due_when_named :
  (ChatManager.should_generate_title quiet_world (lit "c1")
     (one_chat (lit "c1") (lit "Loans")
        [user_says (lit "hi"); assistant_says (lit "hello");
         user_says (lit "more")] None)).1
  = Ok false.
Proof. reflexivity. Qed.


Lemma generate_chat_title_run (W : World) (chat_id : str) (s : State) :
  ChatManager.generate_chat_title W chat_id s =
    match ChatManager.get_chat_histories W chat_id s with
    | (Ok h, s1) =>
        let messages := ChatManager.format_chat_histories (firstn 2 h) in
        (match title_chain_invoke W (trace s1) messages with
         | Ok g => Ok (LangChainManager.trim_title g)
         | Raise e => Raise e
         end,
         set_trace (trace s1 ++ [TitleChainInvoke messages]) s1)
    | (Raise e, s1) => (Raise e, s1)
    end.
Proof.
  unfold ChatManager.generate_chat_title, bind.
  destruct (ChatManager.get_chat_histories W chat_id s) as [[h|e] s1];
    [|done].
  unfold LangChainManager.generate_title, bind, call, ret. cbv zeta.
  by destruct (title_chain_invoke W (trace s1) _).
Qed.



(** *** The retrieval gate *)

Lemma get_rag_response_data_run (W : World) (self : RAGManager) (q : str)
  (s : State) :
  RAGManager.get_rag_response_data W self q s =
    (match search_with_threshold W (trace s) q (threshold self)
             TOP_K_RESULTS with
     | Ok (results, true) =>
         Ok {| use_rag := true;
               context := RAGManager.build_rag_context results;
               prompt :=
                 RAGManager.build_rag_prompt q
                   (RAGManager.build_rag_context results);
               search_results := results |}
     | Ok (_, false) =>
         Ok {| use_rag := false; context := []; prompt := [];
               search_results := [] |}
     | Raise e => Raise e
     end,
     set_trace
       (trace s ++ [SearchWithThreshold q (threshold self) TOP_K_RESULTS]) s).
Proof.
  unfold RAGManager.get_rag_response_data, RAGManager.query, bind, call.
  by destruct (search_with_threshold W (trace s) q (threshold self)
                 TOP_K_RESULTS) as [[results []]|e].
Qed.

(** C1. With the search of the Chroma manager as the specification
    describes it, a query that the index answers with [hits] returns these
    hits together with a flag that is true exactly when one of them has a
    distance of at most the threshold the manager holds at that moment,
    and [get_rag_response_data] reports the same flag as [use_rag]. *)
Theorem retrieval_gate_iff (W : World) (index : DocumentIndex)
  (self : RAGManager) (q : str) (s : State) (hits : list SearchHit) :
  index (trace s) q TOP_K_RESULTS = Ok hits ->
  exists b,
    (RAGManager.query (with_index index W) self q s).1 = Ok (hits, b) /\
    (b = true <->
       exists h, h ∈ hits /\
                 PrimFloat.leb (distance h) (threshold self) = true) /\
    exists d,
      (RAGManager.get_rag_response_data (with_index index W) self q s).1
        = Ok d /\
      use_rag d = b.
Proof.
  intros Hi.
  exists (existsb (fun h => PrimFloat.leb (distance h) (threshold self)) hits).
  rewrite get_rag_response_data_run.
  unfold RAGManager.query, call.
  cbn [fst with_index search_with_threshold].
  unfold chroma_search_with_threshold. rewrite Hi.
  split; [done|]. split.
  - rewrite existsb_exists. by setoid_rewrite list_elem_of_In.
  - destruct (existsb _ hits); eexists; by split.
Qed.

(** Distances 0.9, 1.3 and 1.8 against the threshold 1.2 of the
    settings: retrieval is used. *)
Lemma retrieval_gate_iff_witness :
  exists d,
    (RAGManager.get_rag_response_data (with_index three_hits quiet_world)
       default_rag (lit "q") (session_start (Some default_rag))).1 = Ok d /\
    use_rag d = true.
Proof.
  destruct (retrieval_gate_iff quiet_world three_hits default_rag (lit "q")
              (session_start (Some default_rag))
              [hit 0.9; hit 1.3; hit 1.8] eq_refl)
    as (b & _ & Hb & d & Hd & Hu).
  exists d. split; [exact Hd|].
  rewrite Hu. apply Hb. exists (hit 0.9). split; [left | reflexivity].
Defined.

(** Once the gate is open every hit is kept, also those beyond the
    threshold; with no hit within the threshold nothing is kept. *)
Example gate_open_keeps_all_hits :
  match (RAGManager.get_rag_response_data (with_index three_hits quiet_world)
           default_rag (lit "q") (session_start (Some default_rag))).1 with
  | Ok d =>
      use_rag d = true /\ search_results d = [hit 0.9; hit 1.3; hit 1.8]
  | Raise _ => False
  end.
Proof. vm_compute. split; reflexivity. Qed.

Example gate_closed_drops_hits :
  (RAGManager.get_rag_response_data
     (with_index (fun _ _ _ => Ok [hit 1.3; hit 1.8]) quiet_world)
     default_rag (lit "q") (session_start (Some default_rag))).1
  = Ok {| use_rag := false; context := []; prompt := [];
          search_results := [] |}.
Proof. vm_compute. reflexivity. Qed.

(** *** A failing index *)

(** The methods of these modules have no handler around the search: an
    exception that leaves [search_with_threshold] leaves
    [get_rag_response_data] too. *)
Lemma get_rag_response_data_propagates (W : World) (self : RAGManager)
  (q : str) (s : State) (e : exn) :
  search_with_threshold W (trace s) q (threshold self) TOP_K_RESULTS
    = Raise e ->
  (RAGManager.get_rag_response_data W self q s).1 = Raise e.
Proof. intros H. rewrite get_rag_response_data_run. cbn [fst]. by rewrite H. Qed.

Lemma current_chat_id_state (s : State) : (GUI.current_chat_id s).2 = s.
Proof.
  unfold GUI.current_chat_id, GUI.current_chat, bind, get_state, ret, raise.
  destruct (ss_current_chat (session_state s)) as [c|]; [|done].
  by destruct (cc_id c).
Qed.

(** The default path: what [_process_ai_response] does when no
    [RAGManager] was passed to the GUI. *)
Lemma process_ai_response_without_rag (W : World) (q : str) (s : State) :
  rag_manager s = None ->
  GUI._process_ai_response W q s
    = (do current_id <- GUI.current_chat_id;
       do full_response <- GUI._generate_normal_response W current_id;
       GUI._add_ai_message W full_response false None) s.
Proof.
  intros Hr. unfold GUI._process_ai_response, bind, get_state.
  pose proof (current_chat_id_state s) as Hs.
  destruct (GUI.current_chat_id s) as [[cid|e'] s']; cbn [snd] in Hs;
    subst s'; [|done].
  by rewrite Hr.
Qed.

(** C5, as the specification states it, fails: in a world whose search
    raises, as it does when a failure of the index leaves it, the
    retrieval step raises, the turn raises with it, no chain is asked for
    an answer and no assistant message is stored. *)
Lemma search_failure_aborts_turn :
  let s :=
    one_chat (lit "c1") NEW_CHAT_TITLE [user_says (lit "hi")]
      (Some default_rag) in
  let failure := Exception (lit "index unavailable") in
  (RAGManager.get_rag_response_data failing_search_world default_rag
     (lit "hi") s).1 = Raise failure /\
  (let run := GUI._process_ai_response failing_search_world (lit "hi") s in
   run.1 = Raise failure /\
   all_chat_histories run.2 = all_chat_histories s /\
   trace run.2
   = [SearchWithThreshold (lit "hi") RAG_THRESHOLD TOP_K_RESULTS]) /\
  (GUI._render_chat_input failing_search_world (Some (lit "hi")) s).1
  = Raise failure.
Proof. vm_compute. repeat split. Qed.

(** C5, amended. A turn degrades to the default path when the retrieval
    step returns with its flag unset.  When the search
    answers with hits and an unset flag, [get_rag_response_data] returns
    [use_rag] false with empty context and prompt and no hits, and once
    that search is on record the rest of the turn is the default path:
    the answer is generated from the whole history by the default chain
    and stored as an assistant message with [is_rag] false and no chunks.
    Neither method has a handler of its own: an exception that leaves the
    search leaves [get_rag_response_data] and, with a current chat set,
    the turn, right after the search. *)
Theorem closed_gate_default_path (W : World) (rm : RAGManager) (q : str)
  (s : State) :
  rag_manager s = Some rm ->
  let searched := SearchWithThreshold q (threshold rm) TOP_K_RESULTS in
  let answer :=
    search_with_threshold W (trace s) q (threshold rm) TOP_K_RESULTS in
  (forall hits,
     answer = Ok (hits, false) ->
     RAGManager.get_rag_response_data W rm q s
     = (Ok {| use_rag := false; context := []; prompt := [];
              search_results := [] |},
        set_trace (trace s ++ [searched]) s) /\
     GUI._process_ai_response W q s
     = (do current_id <- GUI.current_chat_id;
        do _ <- call searched (fun _ => Ok tt);
        do full_response <- GUI._generate_normal_response W current_id;
        GUI._add_ai_message W full_response false None) s) /\
  (forall e,
     answer = Raise e ->
     RAGManager.get_rag_response_data W rm q s
     = (Raise e, set_trace (trace s ++ [searched]) s) /\
     forall cid,
       (GUI.current_chat_id s).1 = Ok cid ->
       GUI._process_ai_response W q s
       = (Raise e, set_trace (trace s ++ [searched]) s)).
Proof.
  intros Hr. cbv zeta. split.
  - intros hits Ha.
    assert (Hd : RAGManager.get_rag_response_data W rm q s
                 = (Ok {| use_rag := false; context := []; prompt := [];
                          search_results := [] |},
                    set_trace
                      (trace s
                         ++ [SearchWithThreshold q (threshold rm)
                               TOP_K_RESULTS]) s))
      by (by rewrite get_rag_response_data_run, Ha).
    split; [exact Hd|].
    unfold GUI._process_ai_response, bind, get_state.
    pose proof (current_chat_id_state s) as Hs.
    destruct (GUI.current_chat_id s) as [[cid|e'] s']; cbn [snd] in Hs;
      subst s'; [|done].
    rewrite Hr, Hd. unfold ret, call. cbv beta iota.
    cbn [from_option use_rag context search_results andb GUI.nonempty].
    reflexivity.
  - intros e Ha.
    assert (Hd : RAGManager.get_rag_response_data W rm q s
                 = (Raise e,
                    set_trace
                      (trace s
                         ++ [SearchWithThreshold q (threshold rm)
                               TOP_K_RESULTS]) s))
      by (by rewrite get_rag_response_data_run, Ha).
    split; [exact Hd|]. intros cid Hc.
    unfold GUI._process_ai_response, bind, get_state.
    pose proof (current_chat_id_state s) as Hs.
    destruct (GUI.current_chat_id s) as [[cid'|e'] s']; cbn [fst snd] in *;
      subst s'; [|done].
    by rewrite Hr, Hd.
Qed.

Lemma closed_gate_default_path_witness :
  let s :=
    one_chat (lit "c1") NEW_CHAT_TITLE [user_says (lit "hi")]
      (Some default_rag) in
  let run :=
    GUI._process_ai_response (with_index far_hits quiet_world)
      (lit "hi") s in
  run.1 = Ok tt /\
  all_chat_histories run.2 !! lit "c1"
    = Some [user_says (lit "hi"); assistant_says (lit "Hello")] /\
  trace run.2
    = [SearchWithThreshold (lit "hi") RAG_THRESHOLD TOP_K_RESULTS;
       ChainStream [HumanMessage (lit "hi")];
       DbSaveMessage (lit "c1") ROLE_ASSISTANT (lit "Hello") (Some false)
         None].
Proof.
  cbv zeta.
  destruct (closed_gate_default_path (with_index far_hits quiet_world)
              default_rag (lit "hi")
              (one_chat (lit "c1") NEW_CHAT_TITLE [user_says (lit "hi")]
                 (Some default_rag))
              eq_refl) as [Hclosed _].
  destruct (Hclosed [hit 1.3; hit 1.8] eq_refl) as [_ H].
  rewrite H. vm_compute. repeat split.
Defined.

(** A whole turn of a new conversation whose search finds nothing within
    the threshold: the user message and the answer are stored, and the
    conversation gets its generated title.  With an index that is out of
    order and the search of the specification, the turn stops at the
    search: the user message is stored, no answer is. *)
Example turn_with_far_hits :
  let s := one_chat (lit "c1") NEW_CHAT_TITLE [] (Some default_rag) in
  let run :=
    GUI._render_chat_input (with_index far_hits quiet_world)
      (Some (lit "hi")) s in
  run.1 = Ok true /\
  all_chat_histories run.2 !! lit "c1"
    = Some [user_says (lit "hi"); assistant_says (lit "Hello")] /\
  chat_list run.2 = [{| id := lit "c1"; title := lit "A title that ru" |}].
Proof. vm_compute. repeat split. Qed.

Example turn_with_broken_index :
  let s := one_chat (lit "c1") NEW_CHAT_TITLE [] (Some default_rag) in
  let run :=
    GUI._render_chat_input (with_index broken_index quiet_world)
      (Some (lit "hi")) s in
  run.1 = Raise (Exception (lit "index unavailable")) /\
  all_chat_histories run.2 !! lit "c1" = Some [user_says (lit "hi")] /\
  chat_list run.2 = [{| id := lit "c1"; title := NEW_CHAT_TITLE |}].
Proof. vm_compute. repeat split. Qed.

(** ** Further properties of the conversation cache *)

(** X1. [refresh_from_db] makes one remote call, the fetch of the list.
    When it returns, the list is the fetched one, every cached history is
    gone, so that the next read of any history goes to the store, and the
    session store holds the new values; when it raises, the list, the
    histories and the session store are as before. *)
Theorem refresh_from_db_reloads (W : World) (s : State) :
  let run := ChatManager.refresh_from_db W s in
  trace run.2 = trace s ++ [DbGetAllChats] /\
  match db_get_all_chats W (trace s) with
  | Ok l =>
      run.1 = Ok tt /\
      run.2 = list_fetched l s /\
      forall chat_id,
        trace (ChatManager.get_chat_histories W chat_id run.2).2
        = trace run.2 ++ [DbGetChatHistory chat_id]
  | Raise e =>
      run.1 = Raise e /\
      chat_list run.2 = chat_list s /\
      all_chat_histories run.2 = all_chat_histories s /\
      session_state run.2 = session_state s
  end.
Proof.
  cbv zeta.
  unfold ChatManager.refresh_from_db, ChatManager._load_chat_list_from_db,
    sync_chat_list, sync_all_chat_histories, bind, modify, call.
  destruct (db_get_all_chats W (trace s)) as [l|e]; cbn [fst snd]; [|done].
  split; [done|]. split; [done|]. split; [done|].
  intros chat_id. rewrite get_chat_histories_miss by apply lookup_empty.
  by destruct (db_get_chat_history W _ chat_id).
Qed.

Lemma create_new_chat_with_title_run (W : World) (t : str) (s : State) :
  ChatManager.create_new_chat_with_title W t s =
    let created := trace s ++ [DbCreateChat None t] in
    match db_create_chat W (trace s) None t with
    | Ok (Some i) =>
        (Ok {| id := i; title := t |},
         chat_created {| id := i; title := t |} created s)
    | Ok None =>
        (Ok {| id := shortuuid_uuid W created; title := t |},
         chat_created {| id := shortuuid_uuid W created; title := t |}
           (trace s ++ [DbCreateChat None t; Uuid]) s)
    | Raise e => (Raise e, set_trace created s)
    end.
Proof.
  unfold ChatManager.create_new_chat_with_title, sync_chat_list,
    sync_all_chat_histories, bind, modify, call, ret, chat_created.
  destruct (db_create_chat W (trace s) None t) as [[i|]|e]; cbn;
    [done | | done].
  by rewrite <- app_assoc.
Qed.

(** X2. [create_new_chat_with_title] asks the store for an id and falls
    back on a local one when the store answers [None].  The new
    conversation is put in front of the list, the entries that were there
    follow unchanged, its history is cached as empty, so that reading it
    calls nothing, and its title is found by its id.  When the store
    raises, nothing has been changed. *)
Theorem create_new_chat_with_title_head (W : World) (t : str) (s : State) :
  let run := ChatManager.create_new_chat_with_title W t s in
  match db_create_chat W (trace s) None t with
  | Ok r =>
      let new_id :=
        default (shortuuid_uuid W (trace s ++ [DbCreateChat None t])) r in
      let new_chat := {| id := new_id; title := t |} in
      run.1 = Ok new_chat /\
      chat_list run.2 = new_chat :: chat_list s /\
      all_chat_histories run.2 = <[new_id := []]> (all_chat_histories s) /\
      ss_chat_list (session_state run.2) = Some (chat_list run.2) /\
      ss_all_chat_histories (session_state run.2)
        = Some (all_chat_histories run.2) /\
      trace run.2
        = trace s ++ DbCreateChat None t
                       :: match r with Some _ => [] | None => [Uuid] end /\
      ChatManager.get_chat_histories W new_id run.2 = (Ok [], run.2) /\
      ChatManager.get_chat_title_by_id new_id run.2 = (Ok t, run.2)
  | Raise e =>
      run.1 = Raise e /\
      chat_list run.2 = chat_list s /\
      all_chat_histories run.2 = all_chat_histories s /\
      session_state run.2 = session_state s
  end.
Proof.
  cbv zeta. rewrite create_new_chat_with_title_run.
  destruct (db_create_chat W (trace s) None t) as [[i|]|e];
    cbn [fst snd default from_option]; unfold Datatypes.id; [| |done].
  - repeat split; try done.
    + by apply get_chat_histories_cached, lookup_insert_eq.
    + unfold ChatManager.get_chat_title_by_id, bind, get_state, ret.
      cbn [chat_created chat_list ChatManager.title_by_id id title].
      destruct (decide (i = i)); [done | congruence].
  - repeat split; try done.
    + by apply get_chat_histories_cached, lookup_insert_eq.
    + unfold ChatManager.get_chat_title_by_id, bind, get_state, ret.
      cbn [chat_created chat_list ChatManager.title_by_id id title].
      match goal with |- context [decide (?a = ?a)] =>
        destruct (decide (a = a)); [done | congruence] end.
Qed.

Lemma retitle_ids (l : list Chat) (chat_id new_title : str) :
  map id (ChatManager.retitle l chat_id new_title) = map id l.
Proof.
  induction l as [|c l IH]; [done|].
  cbn [ChatManager.retitle]. destruct (decide (id c = chat_id)); [done|].
  cbn [map]. by rewrite IH.
Qed.

Lemma title_by_id_retitle (l : list Chat) (chat_id new_title : str) :
  chat_id ∈ map id l ->
  ChatManager.title_by_id (ChatManager.retitle l chat_id new_title) chat_id
  = new_title.
Proof.
  induction l as [|c l IH]; cbn [map]; [by intros ?%elem_of_nil|].
  intros Hin. cbn [ChatManager.retitle].
  destruct (decide (id c = chat_id)) as [He|Hne];
    cbn [ChatManager.title_by_id id title].
  - destruct (decide (id c = chat_id)); [done | congruence].
  - destruct (decide (id c = chat_id)); [congruence|].
    apply IH. apply elem_of_cons in Hin as [?|?]; [congruence | done].
Qed.

Lemma title_by_id_retitle_other (l : list Chat)
  (chat_id new_title other : str) :
  other <> chat_id ->
  ChatManager.title_by_id (ChatManager.retitle l chat_id new_title) other
  = ChatManager.title_by_id l other.
Proof.
  intros Hne. induction l as [|c l IH]; [done|].
  cbn [ChatManager.retitle].
  destruct (decide (id c = chat_id)) as [He|Hn];
    cbn [ChatManager.title_by_id id title].
  - destruct (decide (id c = other)); [congruence | done].
  - destruct (decide (id c = other)); [done | apply IH].
Qed.

(** X3. After [update_chat_title] on an id of the list, whether the
    remote write returned or raised, the title found for that id is the new
    one, the title found for every other id is what it was, the list has
    the same ids in the same order, the session store holds the list, and
    the histories are untouched. *)
Theorem update_chat_title_lookup (W : World) (chat_id new_title : str)
  (s : State) :
  chat_id ∈ map id (chat_list s) ->
  let run := ChatManager.update_chat_title W chat_id new_title s in
  ChatManager.get_chat_title_by_id chat_id run.2 = (Ok new_title, run.2) /\
  (forall other,
     other <> chat_id ->
     ChatManager.title_by_id (chat_list run.2) other
     = ChatManager.title_by_id (chat_list s) other) /\
  map id (chat_list run.2) = map id (chat_list s) /\
  ss_chat_list (session_state run.2) = Some (chat_list run.2) /\
  all_chat_histories run.2 = all_chat_histories s.
Proof.
  intros Hin. cbv zeta. rewrite update_chat_title_run. cbn [snd].
  unfold ChatManager.get_chat_title_by_id, bind, get_state, ret.
  cbv zeta. cbn [chat_list]. rewrite title_by_id_retitle by done.
  repeat split; try done.
  - intros other Hne. by apply title_by_id_retitle_other.
  - apply retitle_ids.
Qed.

Lemma update_chat_title_lookup_witness :
  let s := one_chat (lit "c1") NEW_CHAT_TITLE [] None in
  let run :=
    ChatManager.update_chat_title offline_world (lit "c1") (lit "Loans") s in
  run.1 = Raise (Exception (lit "offline")) /\
  ChatManager.get_chat_title_by_id (lit "c1") run.2 = (Ok (lit "Loans"), run.2).
Proof.
  split; [reflexivity|].
  apply (update_chat_title_lookup offline_world (lit "c1") (lit "Loans")
           (one_chat (lit "c1") NEW_CHAT_TITLE [] None)).
  apply list_elem_of_In. left. reflexivity.
Defined.

(** X4. [format_chat_histories] keeps the messages of role user and
    assistant, in their order, each translated to the LangChain message of
    its role, and drops every other message; so it distributes over
    concatenation and never returns more messages than it was given. *)
Theorem format_chat_histories_filter (l l' : list Message) :
  ChatManager.format_chat_histories l
  = map as_lc_message (List.filter known_role l) /\
  ChatManager.format_chat_histories (l ++ l')
  = ChatManager.format_chat_histories l
      ++ ChatManager.format_chat_histories l' /\
  (length (ChatManager.format_chat_histories l) <= length l)%nat.
Proof.
  assert (H : forall k, ChatManager.format_chat_histories k
                        = map as_lc_message (List.filter known_role k)).
  { induction k as [|m k IH]; [done|].
    cbn [ChatManager.format_chat_histories List.filter].
    unfold known_role at 1, as_lc_message.
    destruct (decide (role m = ROLE_USER)) as [Hu|Hu].
    - rewrite (bool_decide_eq_true_2 _ Hu). cbn [orb map].
      rewrite IH. by destruct (decide (role m = ROLE_USER)).
    - rewrite (bool_decide_eq_false_2 _ Hu). cbn [orb].
      destruct (decide (role m = ROLE_ASSISTANT)) as [Ha|Ha].
      + rewrite (bool_decide_eq_true_2 _ Ha). cbn [map].
        rewrite IH. by destruct (decide (role m = ROLE_USER)).
      + by rewrite (bool_decide_eq_false_2 _ Ha). }
  split; [apply H|]. split.
  - by rewrite !H, List.filter_app, map_app.
  - rewrite H, length_map. apply List.filter_length_le.
Qed.

(** X5. [add_message] touches one history only: the history of every
    other id, the conversation list and the current chat are what they
    were.  Two calls in a row leave the two messages at the end of the
    history in the order of the calls, whatever the remote writes
    answered. *)
Theorem add_message_twice (W : World) (chat_id r1 c1 r2 c2 : str)
  (rag1 rag2 : bool) (given1 given2 : option (list ChunkRef)) (s : State) :
  let s1 := (ChatManager.add_message W chat_id r1 c1 rag1 given1 s).2 in
  let s2 := (ChatManager.add_message W chat_id r2 c2 rag2 given2 s1).2 in
  all_chat_histories s2 !! chat_id
    = Some (default [] (all_chat_histories s !! chat_id)
              ++ [ChatManager.build_message r1 c1 rag1 given1;
                  ChatManager.build_message r2 c2 rag2 given2]) /\
  (forall other,
     other <> chat_id ->
     all_chat_histories s2 !! other = all_chat_histories s !! other) /\
  chat_list s2 = chat_list s /\
  ss_chat_list (session_state s2) = ss_chat_list (session_state s) /\
  ss_current_chat (session_state s2) = ss_current_chat (session_state s).
Proof.
  cbv zeta. rewrite !add_message_run. cbn [snd].
  unfold message_appended. cbn [all_chat_histories chat_list session_state
    set_ss_all_chat_histories ss_chat_list ss_current_chat].
  rewrite !lookup_insert_eq. cbn [default from_option]. unfold Datatypes.id.
  split; [by rewrite <- app_assoc|]. split; [|done].
  intros other Hne. by rewrite !lookup_insert_ne.
Qed.

(** ** Further properties of titles *)

Lemma lstrip_split (s : str) :
  exists ws, s = ws ++ lstrip s /\ Forall (fun c => isspace c = true) ws.
Proof.
  induction s as [|c s (ws & Hs & Hws)]; [by exists []|].
  cbn [lstrip]. destruct (isspace c) eqn:Hc.
  - exists (c :: ws). split; [by rewrite Hs at 1 | by constructor].
  - by exists [].
Qed.

Lemma lstrip_head (s r : str) (c : N) :
  lstrip s = c :: r -> isspace c = false.
Proof.
  induction s as [|d s IH]; [done|]. cbn [lstrip].
  destruct (isspace d) eqn:Hd; [done | congruence].
Qed.

Lemma lstrip_spaces (s : str) :
  Forall (fun c => isspace c = true) s -> lstrip s = [].
Proof.
  induction 1 as [|c s Hc _ IH]; [done|]. cbn [lstrip]. by rewrite Hc.
Qed.

Lemma rstrip_split (s : str) :
  exists ws, s = rstrip s ++ ws /\ Forall (fun c => isspace c = true) ws.
Proof.
  destruct (lstrip_split (rev s)) as (ws & Hs & Hws).
  exists (rev ws). split.
  - unfold rstrip. rewrite <- rev_app_distr, <- Hs. by rewrite rev_involutive.
  - by apply Forall_rev.
Qed.

Lemma strip_head (s r : str) (c : N) :
  strip s = c :: r -> isspace c = false.
Proof.
  unfold strip. intros H.
  destruct (rstrip_split (lstrip s)) as (ws & Hs & _).
  rewrite H in Hs. by apply (lstrip_head s (r ++ ws)).
Qed.

Lemma strip_last (s r : str) (c : N) :
  strip s = r ++ [c] -> isspace c = false.
Proof.
  unfold strip, rstrip. intros H.
  apply (f_equal (@rev N)) in H.
  rewrite rev_involutive, rev_unit in H.
  by apply lstrip_head in H.
Qed.

(** X6. Whatever text the title chain returns, the title
    [generate_title] makes of it has at most 15 characters and does not
    start with white space; it is the empty string when the text is white
    space only.  When the stripped text fits in 15 characters the title is
    that text and does not end with white space either; a title that was
    cut may end with white space. *)
Theorem generate_title_shape (W : World) (messages : list LCMessage)
  (s : State) (g : str) :
  title_chain_invoke W (trace s) messages = Ok g ->
  exists t,
    (LangChainManager.generate_title W messages s).1 = Ok t /\
    (length t <= 15)%nat /\
    (forall c r, t = c :: r -> isspace c = false) /\
    (Forall (fun c => isspace c = true) g -> t = []) /\
    ((length (strip g) <= 15)%nat ->
     t = strip g /\ forall r c, t = r ++ [c] -> isspace c = false).
Proof.
  intros Hg. exists (LangChainManager.trim_title g).
  unfold LangChainManager.generate_title, bind, call, ret. rewrite Hg.
  split; [done|]. split; [apply trim_title_length|].
  rewrite trim_title_firstn. repeat split.
  - intros c r Hc. destruct (strip g) as [|d r'] eqn:Hs; [done|].
    cbn in Hc. injection Hc as <- _. by apply (strip_head g r').
  - intros Hall. unfold strip. by rewrite (lstrip_spaces _ Hall).
  - by apply firstn_all2.
  - intros r c. rewrite firstn_all2 by done. apply strip_last.
Qed.

Lemma generate_title_shape_witness :
  exists t,
    (LangChainManager.generate_title quiet_world [] (session_start None)).1
      = Ok t /\
    (length t <= 15)%nat.
Proof.
  destruct (generate_title_shape quiet_world [] (session_start None)
              (lit "  A title that runs past the limit  ") eq_refl)
    as (t & Ht & Hl & _).
  exists t. split; [exact Ht | exact Hl].
Defined.

(** A long answer is stripped first and cut then; a cut that falls
    behind a blank leaves the blank at the end of the title. *)
Example cut_title_after_strip :
  LangChainManager.trim_title (lit " Loans and rates for members ")
  = lit "Loans and rates".
Proof. reflexivity. Qed.

Example cut_title_keeps_blank :
  LangChainManager.trim_title (lit "Rates for loan and more")
  = lit "Rates for loan ".
Proof. reflexivity. Qed.

(** ** Further properties of the retrieval side *)

Lemma context_parts_length (i : nat) (hits : list SearchHit) :
  length (RAGManager.context_parts i hits) = length hits.
Proof.
  revert i. induction hits as [|h hits IH]; intros i; [done|].
  cbn [RAGManager.context_parts length]. by rewrite IH.
Qed.

Lemma build_rag_context_nonempty (hits : list SearchHit) :
  GUI.nonempty (RAGManager.build_rag_context hits) = GUI.nonempty hits.
Proof.
  destruct hits as [|h [|h' hits]]; [done | done | done].
Qed.

(** X7. The context built from the hits of a search is the empty string
    exactly when there is no hit; otherwise it has one entry per hit and
    starts with the heading of the first one, "【参照資料1】". *)
Theorem build_rag_context_empty_iff (hits : list SearchHit) :
  (RAGManager.build_rag_context hits = [] <-> hits = []) /\
  length (RAGManager.context_parts 1 hits) = length hits /\
  (hits <> [] ->
   exists rest,
     RAGManager.build_rag_context hits
     = [12304; 21442; 29031; 36039; 26009] ++ lit "1" ++ [12305] ++ rest).
Proof.
  split; [|split; [apply context_parts_length|]].
  - destruct hits as [|h [|h' hits]]; [done | done | done].
  - destruct hits as [|h [|h' hits]]; [done | |]; intros _;
      eexists; cbn; reflexivity.
Qed.

(** X8. How a turn picks its path once the search has answered with
    [hits] and a flag.  With the flag set and at least one hit, the answer
    comes from the RAG chain, which gets the prompt built from the
    question and all the hits, and it is stored with [is_rag] true and one
    chunk per hit.  In every other case the answer comes from the default
    chain and is stored without chunks, with the flag as its [is_rag]: a
    set flag that comes with no hit gives a message marked [is_rag] that
    has no chunks. *)
Theorem process_ai_response_paths (W : World) (rm : RAGManager) (q : str)
  (s : State) (hits : list SearchHit) (flag : bool) :
  rag_manager s = Some rm ->
  search_with_threshold W (trace s) q (threshold rm) TOP_K_RESULTS
    = Ok (hits, flag) ->
  GUI._process_ai_response W q s
    = (do current_id <- GUI.current_chat_id;
       do _ <- call (SearchWithThreshold q (threshold rm) TOP_K_RESULTS)
                 (fun _ => Ok tt);
       if flag && GUI.nonempty hits then
         do full_response <-
           GUI._generate_rag_response W current_id
             (RAGManager.build_rag_prompt q
                (RAGManager.build_rag_context hits));
         GUI._add_ai_message W full_response true
           (Some (GUI._format_chunks_for_save hits))
       else
         do full_response <- GUI._generate_normal_response W current_id;
         GUI._add_ai_message W full_response flag None) s.
Proof.
  intros Hr Hq.
  unfold GUI._process_ai_response, bind, get_state.
  pose proof (current_chat_id_state s) as Hs.
  destruct (GUI.current_chat_id s) as [[cid|e'] s']; cbn [snd] in Hs;
    subst s'; [|done].
  rewrite Hr, get_rag_response_data_run, Hq. unfold ret, call.
  cbv beta iota.
  destruct flag;
    cbn [from_option use_rag context search_results prompt andb];
    [|done].
  rewrite build_rag_context_nonempty.
  by destruct hits.
Qed.

Lemma process_ai_response_paths_witness :
  let s :=
    one_chat (lit "c1") NEW_CHAT_TITLE [user_says (lit "hi")]
      (Some default_rag) in
  let run :=
    GUI._process_ai_response (with_index three_hits quiet_world)
      (lit "hi") s in
  run.1 = Ok tt /\
  (chunks <$> last (default [] (all_chat_histories run.2 !! lit "c1")))
  = Some (Some (GUI._format_chunks_for_save [hit 0.9; hit 1.3; hit 1.8])).
Proof.
  cbv zeta.
  rewrite (process_ai_response_paths (with_index three_hits quiet_world)
             default_rag (lit "hi")
             (one_chat (lit "c1") NEW_CHAT_TITLE [user_says (lit "hi")]
                (Some default_rag))
             [hit 0.9; hit 1.3; hit 1.8] true eq_refl eq_refl).
  vm_compute. split; reflexivity.
Defined.

(** The flag without a hit: the default chain answers, and the stored
    message is marked [is_rag] without chunks. *)
Example flag_without_hits :
  let W :=
    {| db_get_all_chats := db_get_all_chats quiet_world;
       db_get_chat_history := db_get_chat_history quiet_world;
       db_save_message := db_save_message quiet_world;
       db_create_chat := db_create_chat quiet_world;
       db_update_chat_title := db_update_chat_title quiet_world;
       shortuuid_uuid := shortuuid_uuid quiet_world;
       title_chain_invoke := title_chain_invoke quiet_world;
       chain_stream := chain_stream quiet_world;
       rag_chain_stream := rag_chain_stream quiet_world;
       search_with_threshold := fun _ _ _ _ => Ok ([], true) |} in
  let run :=
    GUI._process_ai_response W (lit "hi")
      (one_chat (lit "c1") NEW_CHAT_TITLE [user_says (lit "hi")]
         (Some default_rag)) in
  all_chat_histories run.2 !! lit "c1"
  = Some [user_says (lit "hi");
          {| role := ROLE_ASSISTANT; content := lit "Hello";
             is_rag := Some true; chunks := None |}].
Proof. vm_compute. reflexivity. Qed.

(** X9. In the RAG path the question is not sent as it was typed: once
    the user message has been appended, the RAG chain gets the translation
    of the history as it was before that message, followed by the prompt
    as the one human message at the end. *)
Theorem generate_rag_response_messages (W : World) (cid q p : str)
  (s : State) :
  let s1 := (ChatManager.add_message W cid ROLE_USER q false None s).2 in
  let messages :=
    ChatManager.format_chat_histories
      (default [] (all_chat_histories s !! cid)) ++ [HumanMessage p] in
  GUI._generate_rag_response W cid p s1
  = (match rag_chain_stream W (trace s1) messages with
     | Ok fragments => Ok (concat fragments)
     | Raise e => Raise e
     end,
     set_trace (trace s1 ++ [RagChainStream messages]) s1).
Proof.
  cbv zeta. rewrite add_message_run. cbn [snd].
  unfold GUI._generate_rag_response, bind.
  rewrite (get_chat_histories_cached _ _ _
             (default [] (all_chat_histories s !! cid)
                ++ [ChatManager.build_message ROLE_USER q false None]))
    by apply lookup_insert_eq.
  rewrite removelast_last.
  unfold LangChainManager.get_streaming_response_rag, call, ret,
    LangChainManager.create_human_message.
  by destruct (rag_chain_stream W _ _).
Qed.

(** ** Further properties of the turn *)

Lemma current_chat_title_state (s : State) :
  (GUI.current_chat_title s).2 = s.
Proof.
  unfold GUI.current_chat_title, GUI.current_chat, bind, get_state, ret,
    raise.
  destruct (ss_current_chat (session_state s)) as [c|]; [|done].
  by destruct (cc_title c).
Qed.

(** X10. The remote record of a conversation is created with its first
    message.  When the current conversation has a cached history,
    [_add_user_message] asks the store to create the chat, under the
    current id and title, exactly when that history is empty, and does so
    before it appends the message; when the history is not empty it is
    [add_message] and nothing else.  When the creation raises, the message
    is neither appended nor saved. *)
Theorem add_user_message_lazy_creation (W : World) (q cid : str)
  (s : State) (h : list Message) :
  (GUI.current_chat_id s).1 = Ok cid ->
  all_chat_histories s !! cid = Some h ->
  let run := GUI._add_user_message W q s in
  match h with
  | _ :: _ => run = ChatManager.add_message W cid ROLE_USER q false None s
  | [] =>
      match (GUI.current_chat_title s).1 with
      | Ok t =>
          let created := trace s ++ [DbCreateChat (Some cid) t] in
          match db_create_chat W (trace s) (Some cid) t with
          | Ok _ =>
              run = ChatManager.add_message W cid ROLE_USER q false None
                      (set_trace created s)
          | Raise e => run = (Raise e, set_trace created s)
          end
      | Raise e => run = (Raise e, s)
      end
  end.
Proof.
  intros Hc Hh. cbv zeta. unfold GUI._add_user_message, bind.
  pose proof (current_chat_id_state s) as Hs.
  destruct (GUI.current_chat_id s) as [[cid'|e'] s']; cbn [fst snd] in *;
    [|done].
  injection Hc as ->. subst s'.
  rewrite (get_chat_histories_cached _ _ _ _ Hh).
  destruct h as [|m h]; [|done].
  pose proof (current_chat_title_state s) as Ht.
  destruct (GUI.current_chat_title s) as [[t|e'] s']; cbn [fst snd] in *;
    subst s'; [|done].
  unfold call, ret.
  by destruct (db_create_chat W (trace s) (Some cid) t).
Qed.

Lemma add_user_message_lazy_creation_witness :
  let s := one_chat (lit "c1") NEW_CHAT_TITLE [] None in
  GUI._add_user_message offline_world (lit "hi") s
  = (Raise (Exception (lit "offline")),
     set_trace [DbCreateChat (Some (lit "c1")) NEW_CHAT_TITLE] s).
Proof.
  exact (add_user_message_lazy_creation offline_world (lit "hi") (lit "c1")
           (one_chat (lit "c1") NEW_CHAT_TITLE [] None) [] eq_refl eq_refl).
Defined.

Lemma bind_ok {A B} (m : M A) (k : A -> M B) (s s' : State) (a : A) :
  m s = (Ok a, s') -> bind m k s = k a s'.
Proof. intros H. unfold bind. by rewrite H. Qed.

Lemma bind_raise {A B} (m : M A) (k : A -> M B) (s s' : State) (e : exn) :
  m s = (Raise e, s') -> bind m k s = (Raise e, s').
Proof. intros H. unfold bind. by rewrite H. Qed.

Lemma current_chat_id_run (s : State) (cid : str) :
  (GUI.current_chat_id s).1 = Ok cid -> GUI.current_chat_id s = (Ok cid, s).
Proof.
  intros H. pose proof (current_chat_id_state s) as Hs.
  destruct (GUI.current_chat_id s) as [r s']. cbn [fst snd] in *. congruence.
Qed.

Lemma current_chat_id_ok (s : State) (cid : str) :
  (GUI.current_chat_id s).1 = Ok cid ->
  exists c, ss_current_chat (session_state s) = Some c /\ cc_id c = Some cid.
Proof.
  unfold GUI.current_chat_id, GUI.current_chat, bind, get_state, ret, raise.
  destruct (ss_current_chat (session_state s)) as [c|]; [|done].
  destruct (cc_id c) as [i|] eqn:Hi; [|done].
  cbn. intros [= ->]. by exists c.
Qed.

Lemma should_generate_title_cached (W : World) (cid : str) (s : State)
  (h : list Message) :
  all_chat_histories s !! cid = Some h ->
  ChatManager.should_generate_title W cid s
  = (Ok (startswith (ChatManager.title_by_id (chat_list s) cid)
           NEW_CHAT_TITLE && (2 <=? length h)%nat), s).
Proof.
  intros Hh. rewrite should_generate_title_run.
  rewrite (get_chat_histories_cached _ _ _ _ Hh).
  by destruct (startswith _ NEW_CHAT_TITLE).
Qed.

(** X11. With a current conversation whose history is cached,
    [_auto_generate_title_if_needed] never raises.  It changes and calls
    nothing when no title is due.  When one is due and the title chain
    raises, it answers false and leaves the list and the session alone.
    When the chain answers, the list gets the new title before the store
    is told; if that remote write raises, the answer is false although the
    list already carries the new title, and only if it returns is the
    title of the current chat set and the answer true. *)
Theorem auto_generate_title_contained (W : World) (s : State) (cid : str)
  (h : list Message) :
  (GUI.current_chat_id s).1 = Ok cid ->
  all_chat_histories s !! cid = Some h ->
  let run := GUI._auto_generate_title_if_needed W s in
  let messages := ChatManager.format_chat_histories (firstn 2 h) in
  let asked := trace s ++ [TitleChainInvoke messages] in
  if startswith (ChatManager.title_by_id (chat_list s) cid) NEW_CHAT_TITLE
     && (2 <=? length h)%nat
  then
    match title_chain_invoke W (trace s) messages with
    | Raise _ => run = (Ok false, set_trace asked s)
    | Ok g =>
        let t := LangChainManager.trim_title g in
        chat_list run.2 = ChatManager.retitle (chat_list s) cid t /\
        trace run.2 = asked ++ [DbUpdateChatTitle cid t] /\
        match db_update_chat_title W asked cid t with
        | Ok _ =>
            run.1 = Ok true /\
            (cc_title <$> ss_current_chat (session_state run.2))
            = Some (Some t)
        | Raise _ =>
            run.1 = Ok false /\
            ss_current_chat (session_state run.2)
            = ss_current_chat (session_state s)
        end
    end
  else run = (Ok false, s).
Proof.
  intros Hc Hh. cbv zeta.
  destruct (current_chat_id_ok _ _ Hc) as (c & Hcc & Hid).
  unfold GUI._auto_generate_title_if_needed.
  rewrite (bind_ok _ _ _ _ _ (current_chat_id_run _ _ Hc)).
  rewrite (bind_ok _ _ _ _ _ (should_generate_title_cached W _ _ _ Hh)).
  destruct (startswith _ NEW_CHAT_TITLE && (2 <=? length h)%nat);
    cbn [negb]; [|reflexivity].
  unfold try_except.
  pose proof (generate_chat_title_run W cid s) as Hg.
  rewrite (get_chat_histories_cached _ _ _ _ Hh) in Hg. cbv zeta in Hg.
  destruct (title_chain_invoke W (trace s) _) as [g|e].
  2: { by rewrite (bind_raise _ _ _ _ _ Hg). }
  rewrite (bind_ok _ _ _ _ _ Hg).
  pose proof (update_chat_title_run W cid (LangChainManager.trim_title g)
                (set_trace
                   (trace s
                      ++ [TitleChainInvoke
                            (ChatManager.format_chat_histories (firstn 2 h))])
                   s)) as Hu.
  cbv zeta in Hu. cbn [trace set_trace chat_list all_chat_histories
    session_state rag_manager] in Hu.
  destruct (db_update_chat_title W _ cid _) as [[]|e].
  2: { by rewrite (bind_raise _ _ _ _ _ Hu). }
  rewrite (bind_ok _ _ _ _ _ Hu).
  unfold GUI.set_current_chat_title, GUI.current_chat, bind, get_state,
    modify, ret.
  cbn. by rewrite Hcc.
Qed.

Lemma auto_generate_title_contained_witness :
  let s :=
    one_chat (lit "c1") NEW_CHAT_TITLE
      [user_says (lit "hi"); assistant_says (lit "Hello")] None in
  let run := GUI._auto_generate_title_if_needed offline_world s in
  run.1 = Ok false /\
  chat_list run.2 = [{| id := lit "c1"; title := lit "A title that ru" |}] /\
  ss_current_chat (session_state run.2) = ss_current_chat (session_state s).
Proof.
  destruct (auto_generate_title_contained offline_world
              (one_chat (lit "c1") NEW_CHAT_TITLE
                 [user_says (lit "hi"); assistant_says (lit "Hello")] None)
              (lit "c1")
              [user_says (lit "hi"); assistant_says (lit "Hello")]
              eq_refl eq_refl)
    as (Hl & _ & Hr & Hcur).
  split; [exact Hr|]. split; [exact Hl | exact Hcur].
Defined.

(** X12. A current conversation that is not in the list, as the one
    selected when a session starts on an empty list, never gets an
    automatic title: the title found for it is the one of an unknown
    conversation, so [_auto_generate_title_if_needed] answers false at
    once, whatever its history, without a call and without a change. *)
Theorem auto_generate_title_unlisted (W : World) (s : State) (cid : str) :
  (GUI.current_chat_id s).1 = Ok cid ->
  cid ∉ map id (chat_list s) ->
  GUI._auto_generate_title_if_needed W s = (Ok false, s).
Proof.
  intros Hc Hn.
  unfold GUI._auto_generate_title_if_needed, bind.
  pose proof (current_chat_id_state s) as Hs.
  destruct (GUI.current_chat_id s) as [[cid'|e'] s']; cbn [fst snd] in *;
    [|done].
  injection Hc as ->. subst s'.
  rewrite should_generate_title_run, (title_by_id_absent _ _ Hn).
  reflexivity.
Qed.

Lemma auto_generate_title_unlisted_witness :
  let s := (startup quiet_world (session_start None)).2 in
  GUI._auto_generate_title_if_needed quiet_world s = (Ok false, s).
Proof.
  apply (auto_generate_title_unlisted quiet_world
           (startup quiet_world (session_start None)).2
           (lit "local1")).
  - reflexivity.
  - vm_compute. apply not_elem_of_nil.
Defined.

(** X13. [_create_new_chat] works in memory only: the one call it makes
    is the generation of the id.  The new conversation, titled
    "新規チャット", is put in front of the list with an empty cached
    history, it becomes the current chat, the session store holds the new
    list and histories, and no title is due for it yet. *)
Theorem create_new_chat_in_memory (W : World) (s : State) (c : CurrentChat) :
  ss_current_chat (session_state s) = Some c ->
  let new_id := shortuuid_uuid W (trace s) in
  let new_chat := {| id := new_id; title := NEW_CHAT_TITLE |} in
  let run := GUI._create_new_chat W s in
  run = (Ok tt,
         current_selected new_id NEW_CHAT_TITLE
           (chat_created new_chat (trace s ++ [Uuid]) s)) /\
  ChatManager.get_chat_histories W new_id run.2 = (Ok [], run.2) /\
  ChatManager.should_generate_title W new_id run.2 = (Ok false, run.2).
Proof.
  intros Hc. cbv zeta.
  assert (Hrun : GUI._create_new_chat W s
                 = (Ok tt,
                    current_selected (shortuuid_uuid W (trace s))
                      NEW_CHAT_TITLE
                      (chat_created
                         {| id := shortuuid_uuid W (trace s);
                            title := NEW_CHAT_TITLE |}
                         (trace s ++ [Uuid]) s))).
  { unfold GUI._create_new_chat, GUI._update_current_chat,
      GUI.set_current_chat_id, GUI.set_current_chat_title, GUI.current_chat,
      ChatManager.get_chat_title_by_id, sync_chat_list,
      sync_all_chat_histories, bind, get_state, modify, call, ret.
    cbn. rewrite Hc. cbn.
    match goal with |- context [decide (?a = ?a)] =>
      destruct (decide (a = a)); [done | congruence] end. }
  rewrite Hrun. cbn [snd]. split; [done|].
  assert (Hh : all_chat_histories
                 (current_selected (shortuuid_uuid W (trace s))
                    NEW_CHAT_TITLE
                    (chat_created
                       {| id := shortuuid_uuid W (trace s);
                          title := NEW_CHAT_TITLE |}
                       (trace s ++ [Uuid]) s))
                 !! shortuuid_uuid W (trace s) = Some [])
    by apply lookup_insert_eq.
  split; [by apply get_chat_histories_cached|].
  rewrite (should_generate_title_cached _ _ _ _ Hh).
  by rewrite andb_false_r.
Qed.

Lemma create_new_chat_in_memory_witness :
  let s := one_chat (lit "c1") (lit "Loans") [user_says (lit "hi")] None in
  let run := GUI._create_new_chat offline_world s in
  run.1 = Ok tt /\
  trace run.2 = [Uuid] /\
  map id (chat_list run.2) = [lit "local0"; lit "c1"].
Proof.
  destruct (create_new_chat_in_memory offline_world
              (one_chat (lit "c1") (lit "Loans") [user_says (lit "hi")] None)
              {| cc_id := Some (lit "c1"); cc_title := Some (lit "Loans") |}
              eq_refl) as (Hrun & _).
  cbv zeta. rewrite Hrun. repeat split.
Defined.

(** ** Further properties of the sidebar *)

Lemma get_chat_histories_keeps (W : World) (i k : str) (s : State)
  (h : list Message) :
  all_chat_histories s !! k = Some h ->
  all_chat_histories (ChatManager.get_chat_histories W i s).2 !! k = Some h.
Proof.
  intros Hk. destruct (all_chat_histories s !! i) as [hi|] eqn:Hi.
  - by rewrite (get_chat_histories_cached _ _ _ _ Hi).
  - rewrite (get_chat_histories_miss _ _ _ Hi).
    destruct (db_get_chat_history W (trace s) i); [|done].
    cbn. rewrite lookup_insert_ne; [done | congruence].
Qed.

Lemma get_chat_histories_stores (W : World) (i : str) (s s' : State)
  (h : list Message) :
  ChatManager.get_chat_histories W i s = (Ok h, s') ->
  all_chat_histories s' !! i = Some h.
Proof.
  destruct (all_chat_histories s !! i) as [hi|] eqn:Hi.
  - rewrite (get_chat_histories_cached _ _ _ _ Hi). congruence.
  - rewrite (get_chat_histories_miss _ _ _ Hi).
    destruct (db_get_chat_history W (trace s) i); [|done].
    intros [= <- <-]. apply lookup_insert_eq.
Qed.

Lemma has_empty_chat_keeps (W : World) (l : list Chat) (k : str)
  (s : State) (h : list Message) :
  all_chat_histories s !! k = Some h ->
  all_chat_histories (GUI.has_empty_chat W l s).2 !! k = Some h.
Proof.
  revert s. induction l as [|c l IH]; intros s Hk; [done|].
  cbn [GUI.has_empty_chat]. unfold bind.
  pose proof (get_chat_histories_keeps W (id c) k s h Hk) as Hk'.
  destruct (ChatManager.get_chat_histories W (id c) s) as [[[|m hc]|e] s1];
    cbn [snd] in *; [done | by apply IH | done].
Qed.

(** X14. The check for an empty conversation that the sidebar makes goes
    through the list and loads the histories it has not got.  When it
    answers that there is none, every conversation of the list has a
    cached history afterwards, and none of these is empty. *)
Theorem has_empty_chat_false (W : World) (l : list Chat) (s : State) :
  (GUI.has_empty_chat W l s).1 = Ok false ->
  forall c,
    c ∈ l ->
    exists h,
      all_chat_histories (GUI.has_empty_chat W l s).2 !! id c = Some h /\
      h <> [].
Proof.
  revert s. induction l as [|c0 l IH]; intros s Hr c Hin;
    [by apply elem_of_nil in Hin|].
  cbn [GUI.has_empty_chat] in *. unfold bind in *.
  destruct (ChatManager.get_chat_histories W (id c0) s)
    as [[[|m hc]|e] s1] eqn:Hg; [done | | done].
  apply elem_of_cons in Hin as [->|Hin].
  - exists (m :: hc). split; [|done].
    apply has_empty_chat_keeps. by apply (get_chat_histories_stores W _ s).
  - by apply IH.
Qed.

Lemma has_empty_chat_false_witness :
  let s :=
    one_chat (lit "c1") (lit "Loans") [user_says (lit "hi")] None in
  exists h,
    all_chat_histories
      (GUI.has_empty_chat offline_world (chat_list s) s).2 !! lit "c1"
    = Some h /\ h <> [].
Proof.
  apply (has_empty_chat_false offline_world
           (chat_list
              (one_chat (lit "c1") (lit "Loans") [user_says (lit "hi")] None))
           (one_chat (lit "c1") (lit "Loans") [user_says (lit "hi")] None)
           eq_refl {| id := lit "c1"; title := lit "Loans" |}).
  apply list_elem_of_In. left. reflexivity.
Defined.

(** X15. The slider step keeps the threshold of the manager and the
    remembered value in step: when the session remembers no value or the
    value the manager holds, then afterwards it remembers the value the
    manager holds, that value compares equal to what the slider returned
    (a slider value is a number, equal to itself), and a slider left at
    the threshold of the manager changes nothing. *)
Theorem update_threshold_in_step (rm : RAGManager)
  (previous_threshold : option float) (new_threshold : float) :
  previous_threshold = None \/ previous_threshold = Some (threshold rm) ->
  PrimFloat.eqb new_threshold new_threshold = true ->
  let run := GUI.update_threshold rm previous_threshold new_threshold in
  run.2 = threshold run.1 /\
  PrimFloat.eqb new_threshold (threshold run.1) = true /\
  (PrimFloat.eqb new_threshold (threshold rm) = true -> run.1 = rm).
Proof.
  intros Hp Hn. cbv zeta. unfold GUI.update_threshold.
  assert (Hd : default (threshold rm) previous_threshold = threshold rm)
    by (by destruct Hp as [-> | ->]).
  rewrite Hd.
  destruct (PrimFloat.eqb new_threshold (threshold rm)) eqn:He;
    cbn [negb fst snd threshold]; by repeat split.
Qed.

Lemma update_threshold_in_step_witness :
  let run := GUI.update_threshold default_rag None 1.5%float in
  run.2 = threshold run.1 /\
  PrimFloat.eqb 1.5%float (threshold run.1) = true.
Proof.
  destruct (update_threshold_in_step default_rag None 1.5%float
              (or_introl eq_refl) eq_refl) as (H1 & H2 & _).
  split; [exact H1 | exact H2].
Defined.

(** X16. What the history shows for a stored answer is what was shown
    when the answer was given: for the message a turn stores, the notice
    chosen by [_render_response_mode_info] is the one
    [_render_search_results] chose from the flag and the hits.  For any
    message [add_message] builds, the RAG notice is shown exactly when the
    message has chunks. *)
Theorem stored_mode_matches_live (c r : str) (use_rag rag : bool)
  (hits : list SearchHit) (given : option (list ChunkRef)) :
  GUI._render_response_mode_info
    (ChatManager.build_message ROLE_ASSISTANT c use_rag
       (if use_rag && GUI.nonempty hits
        then Some (GUI._format_chunks_for_save hits)
        else None))
  = GUI._render_search_results use_rag hits /\
  (GUI._render_response_mode_info
     (ChatManager.build_message r c rag given) = true
   <-> is_Some (chunks (ChatManager.build_message r c rag given))).
Proof.
  unfold GUI._render_response_mode_info, GUI._render_search_results,
    ChatManager.build_message.
  split.
  - destruct (decide (ROLE_ASSISTANT = ROLE_ASSISTANT)); [|done].
    by destruct use_rag, hits.
  - destruct (decide (r = ROLE_ASSISTANT)); cbn [is_rag chunks];
      [|split; [done | by intros [? ?]]].
    destruct rag, given as [[|x xs]|]; cbn;
      split; try done; try (by intros [? ?]); by eauto.
Qed.

(** ** The document pipeline *)

(** X17. A reload clears the collection before it reads any document,
    and documents are stored only when there is at least one chunk: every
    list handed to [add_documents] is non-empty.  So a reload that finds no
    chunk answers [False] and leaves the collection cleared. *)
Theorem reload_documents_order (D : Pipeline) (path : str)
  (t : list PipelineEvent) :
  let run := RAGManager.reload_documents D path t in
  (exists rest, run.2 = t ++ ClearCollection :: rest /\
     forall chunks, AddDocuments chunks ∈ rest -> chunks <> []) /\
  (forall u,
     clear_collection D t = Ok u ->
     process_directory D (t ++ [ClearCollection]) path = Ok [] ->
     run = (Ok false, t ++ [ClearCollection; ProcessDirectory path])).
Proof.
  cbv zeta. unfold RAGManager.reload_documents, RAGManager.process_all_pdfs.
  split.
  - destruct (clear_collection D t) as [u|e].
    + destruct (process_directory D _ path) as [[|c cs]|e]; cbn [snd].
      * exists [ProcessDirectory path]. rewrite <- app_assoc.
        split; [done|]. intros chunks Hin.
        apply list_elem_of_singleton in Hin. discriminate.
      * exists [ProcessDirectory path; AddDocuments (c :: cs)].
        rewrite <- !app_assoc. split; [done|]. intros chunks Hin.
        apply elem_of_cons in Hin as [Hin|Hin]; [discriminate|].
        apply list_elem_of_singleton in Hin. by injection Hin as ->.
      * exists [ProcessDirectory path]. rewrite <- app_assoc.
        split; [done|]. intros chunks Hin.
        apply list_elem_of_singleton in Hin. discriminate.
    + exists []. split; [done|]. intros chunks Hin.
      by apply elem_of_nil in Hin.
  - intros u Hu Hp. rewrite Hu, Hp. by rewrite <- app_assoc.
Qed.

(** ** The folder id of a Drive URL *)

Lemma id_run_split (s : str) :
  exists rest,
    s = ReloadDocuments.id_run s ++ rest /\
    Forall (fun c => ReloadDocuments.is_id_char c = true)
      (ReloadDocuments.id_run s) /\
    forall c r, rest = c :: r -> ReloadDocuments.is_id_char c = false.
Proof.
  induction s as [|c s (rest & Hs & Hall & Hrest)].
  - exists []. by repeat split.
  - cbn [ReloadDocuments.id_run].
    destruct (ReloadDocuments.is_id_char c) eqn:Hc.
    + exists rest. split; [by rewrite Hs at 1|]. split; [by constructor|done].
    + exists (c :: s). split; [done|]. split; [done|]. by intros ? ? [= <- _].
Qed.

Lemma id_run_app (i post : str) :
  Forall (fun c => ReloadDocuments.is_id_char c = true) i ->
  ReloadDocuments.id_run (i ++ post) = i ++ ReloadDocuments.id_run post.
Proof.
  induction 1 as [|c i Hc _ IH]; [done|].
  cbn [app ReloadDocuments.id_run]. by rewrite Hc, IH.
Qed.

Lemma skipn_folders (r : str) : skipn 8 (lit "folders/" ++ r) = r.
Proof. reflexivity. Qed.

Lemma search_folders_sound (url i : str) :
  ReloadDocuments.search_folders url = Some i ->
  i <> [] /\
  Forall (fun c => ReloadDocuments.is_id_char c = true) i /\
  exists pre post,
    url = pre ++ lit "folders/" ++ i ++ post /\
    forall c r, post = c :: r -> ReloadDocuments.is_id_char c = false.
Proof.
  induction url as [|c rest IH]; [done|].
  cbn [ReloadDocuments.search_folders].
  assert (Hrec : ReloadDocuments.search_folders rest = Some i ->
                 i <> [] /\
                 Forall (fun c => ReloadDocuments.is_id_char c = true) i /\
                 exists pre post,
                   c :: rest = pre ++ lit "folders/" ++ i ++ post /\
                   forall c r, post = c :: r ->
                               ReloadDocuments.is_id_char c = false).
  { intros H. destruct (IH H) as (Hi & Hall & pre & post & Hu & Hp).
    split; [done|]. split; [done|].
    exists (c :: pre), post. split; [by rewrite Hu | done]. }
  destruct (startswith (c :: rest) (lit "folders/")) eqn:Hs; [|done].
  apply startswith_prefix in Hs as [r Hr].
  replace (skipn 8 (c :: rest)) with r
    by (rewrite Hr; symmetry; apply skipn_folders).
  destruct (id_run_split r) as (post & Hsplit & Hall & Hpost).
  destruct (ReloadDocuments.id_run r) as [|c' run] eqn:Hrun; [exact Hrec|].
  intros [= <-]. split; [done|]. split; [done|].
  exists [], post. split; [|done].
  rewrite Hr. cbn [app]. by rewrite Hsplit at 1.
Qed.

Lemma search_folders_complete (pre i post : str) :
  i <> [] ->
  Forall (fun c => ReloadDocuments.is_id_char c = true) i ->
  is_Some
    (ReloadDocuments.search_folders (pre ++ lit "folders/" ++ i ++ post)).
Proof.
  intros Hi Hall. induction pre as [|c pre IH].
  - cbn [app].
    assert (Hs : startswith (lit "folders/" ++ i ++ post) (lit "folders/")
                 = true) by (apply startswith_prefix; eauto).
    destruct (lit "folders/" ++ i ++ post) as [|c rest] eqn:Hu; [done|].
    cbn [ReloadDocuments.search_folders]. rewrite Hs, <- Hu, skipn_folders.
    rewrite id_run_app by done.
    destruct i as [|c' i']; [done | by eexists].
  - cbn [app ReloadDocuments.search_folders].
    destruct (startswith _ (lit "folders/")); [|done].
    by destruct (ReloadDocuments.id_run _); [|eexists].
Qed.

(** X18. The folder id [get_folder_id_from_url] extracts is never empty,
    is made of letters, digits, [_] and [-] only, and stands in the URL
    right after an occurrence of "folders/", where it ends at the end of
    the URL or before a character that is none of these.  No id is found
    in a missing or empty URL, and one is found in every URL in which
    "folders/" is followed by such a character. *)
Theorem get_folder_id_from_url_spec (url : option str) :
  (forall i,
     ReloadDocuments.get_folder_id_from_url url = Some i ->
     i <> [] /\
     Forall (fun c => ReloadDocuments.is_id_char c = true) i /\
     exists pre post,
       url = Some (pre ++ lit "folders/" ++ i ++ post) /\
       forall c r, post = c :: r -> ReloadDocuments.is_id_char c = false) /\
  (url = None \/ url = Some [] ->
   ReloadDocuments.get_folder_id_from_url url = None) /\
  (forall pre i post,
     url = Some (pre ++ lit "folders/" ++ i ++ post) ->
     i <> [] ->
     Forall (fun c => ReloadDocuments.is_id_char c = true) i ->
     is_Some (ReloadDocuments.get_folder_id_from_url url)).
Proof.
  split; [|split].
  - intros i. destruct url as [[|c u]|]; [done | | done].
    cbn [ReloadDocuments.get_folder_id_from_url]. intros H.
    destruct (search_folders_sound _ _ H) as (Hi & Hall & pre & post & Hu & Hp).
    split; [done|]. split; [done|]. exists pre, post. by rewrite Hu.
  - by intros [-> | ->].
  - intros pre i post -> Hi Hall.
    pose proof (search_folders_complete pre i post Hi Hall) as Hs.
    unfold ReloadDocuments.get_folder_id_from_url.
    by destruct (pre ++ lit "folders/" ++ i ++ post).
Qed.

(** The id of a folder link as Drive gives it, and a link without one. *)
Example folder_id_of_drive_link :
  ReloadDocuments.get_folder_id_from_url
    (Some (lit "https://drive.google.com/drive/folders/1AbC_d-9xYz?usp=sharing"))
  = Some (lit "1AbC_d-9xYz").
Proof. reflexivity. Qed.

Example folder_id_missing :
  ReloadDocuments.get_folder_id_from_url
    (Some (lit "https://drive.google.com/drive/folders/?usp=sharing"))
  = None.
Proof. reflexivity. Qed.

(** ** The session store across reruns *)

Lemma keeps_synced_ret {A} (a : A) : keeps_synced (ret a).
Proof. by intros s. Qed.

Lemma keeps_synced_raise {A} (e : exn) : keeps_synced (@raise A e).
Proof. by intros s. Qed.

Lemma keeps_synced_get_state : keeps_synced get_state.
Proof. by intros s. Qed.

Lemma keeps_synced_call {A} (ev : Event) (answer : list Event -> result A) :
  keeps_synced (call ev answer).
Proof. by intros s. Qed.

Lemma keeps_synced_bind {A B} (m : M A) (k : A -> M B) :
  keeps_synced m -> (forall a, keeps_synced (k a)) ->
  keeps_synced (bind m k).
Proof.
  intros Hm Hk s Hs. unfold bind. specialize (Hm s Hs).
  destruct (m s) as [[a|e] s1]; cbn [snd] in *; [by apply Hk | done].
Qed.

Lemma keeps_synced_try_except {A} (m : M A) (h : exn -> M A) :
  keeps_synced m -> (forall e, keeps_synced (h e)) ->
  keeps_synced (try_except m h).
Proof.
  intros Hm Hh s Hs. unfold try_except. specialize (Hm s Hs).
  destruct (m s) as [[a|e] s1]; cbn [snd] in *; [done | by apply Hh].
Qed.

Lemma keeps_synced_get_chat_histories (W : World) (chat_id : str) :
  keeps_synced (ChatManager.get_chat_histories W chat_id).
Proof.
  intros s [Hl Hh].
  destruct (all_chat_histories s !! chat_id) as [h|] eqn:Hc.
  - by rewrite (get_chat_histories_cached _ _ _ _ Hc).
  - rewrite (get_chat_histories_miss _ _ _ Hc).
    by destruct (db_get_chat_history W (trace s) chat_id).
Qed.

Lemma keeps_synced_add_message (W : World) (chat_id r c : str) (rag : bool)
  (given : option (list ChunkRef)) :
  keeps_synced (ChatManager.add_message W chat_id r c rag given).
Proof. intros s [Hl Hh]. by rewrite add_message_run. Qed.

Lemma keeps_synced_update_chat_title (W : World) (chat_id new_title : str) :
  keeps_synced (ChatManager.update_chat_title W chat_id new_title).
Proof. intros s [Hl Hh]. by rewrite update_chat_title_run. Qed.

Lemma keeps_synced_current_chat : keeps_synced GUI.current_chat.
Proof.
  intros s Hs. unfold GUI.current_chat, bind, get_state, ret, raise.
  by destruct (ss_current_chat (session_state s)).
Qed.

Lemma keeps_synced_current_chat_id : keeps_synced GUI.current_chat_id.
Proof. intros s Hs. by rewrite current_chat_id_state. Qed.

Lemma keeps_synced_current_chat_title : keeps_synced GUI.current_chat_title.
Proof. intros s Hs. by rewrite current_chat_title_state. Qed.

Lemma keeps_synced_set_current_chat_title (t : str) :
  keeps_synced (GUI.set_current_chat_title t).
Proof.
  apply keeps_synced_bind; [apply keeps_synced_current_chat|].
  by intros c s.
Qed.

Lemma keeps_synced_set_current_chat_id (i : str) :
  keeps_synced (GUI.set_current_chat_id i).
Proof.
  apply keeps_synced_bind; [apply keeps_synced_current_chat|].
  by intros c s.
Qed.

(** A turn is made of calls that keep the two in step. *)
Lemma keeps_synced_render_chat_input (W : World) (user_input : option str) :
  keeps_synced (GUI._render_chat_input W user_input).
Proof.
  unfold GUI._render_chat_input, GUI._add_user_message,
    GUI._process_ai_response, GUI._auto_generate_title_if_needed,
    GUI._generate_rag_response, GUI._generate_normal_response,
    GUI._add_ai_message, ChatManager.should_generate_title,
    ChatManager.generate_chat_title, ChatManager.get_chat_title_by_id,
    RAGManager.get_rag_response_data, RAGManager.query,
    LangChainManager.generate_title,
    LangChainManager.get_streaming_response,
    LangChainManager.get_streaming_response_rag.
  repeat first
    [ solve [eauto using keeps_synced_ret, keeps_synced_raise,
               keeps_synced_get_state, keeps_synced_call,
               keeps_synced_get_chat_histories, keeps_synced_add_message,
               keeps_synced_update_chat_title, keeps_synced_current_chat,
               keeps_synced_current_chat_id, keeps_synced_current_chat_title,
               keeps_synced_set_current_chat_title,
               keeps_synced_set_current_chat_id]
    | apply keeps_synced_bind; [|intros ?]
    | apply keeps_synced_try_except; [|intros ?]
    | match goal with
      | |- keeps_synced (match ?x with _ => _ end) => destruct x
      | |- keeps_synced (if ?b then _ else _) => destruct b
      end ].
Qed.

Lemma keeps_synced_update_current_chat (new_id : str) :
  keeps_synced (GUI._update_current_chat new_id).
Proof.
  unfold GUI._update_current_chat, ChatManager.get_chat_title_by_id.
  repeat first
    [ solve [eauto using keeps_synced_ret, keeps_synced_raise,
               keeps_synced_get_state, keeps_synced_call,
               keeps_synced_get_chat_histories, keeps_synced_add_message,
               keeps_synced_update_chat_title, keeps_synced_current_chat,
               keeps_synced_current_chat_id, keeps_synced_current_chat_title,
               keeps_synced_set_current_chat_title,
               keeps_synced_set_current_chat_id]
    | apply keeps_synced_bind; [|intros ?]
    | apply keeps_synced_try_except; [|intros ?]
    | match goal with
      | |- keeps_synced (match ?x with _ => _ end) => destruct x
      | |- keeps_synced (if ?b then _ else _) => destruct b
      end ].
Qed.

Lemma keeps_synced_has_empty_chat (W : World) (l : list Chat) :
  keeps_synced (GUI.has_empty_chat W l).
Proof.
  induction l as [|c l IH]; cbn [GUI.has_empty_chat];
  repeat first
    [ solve [eauto using keeps_synced_ret, keeps_synced_raise,
               keeps_synced_get_state, keeps_synced_call,
               keeps_synced_get_chat_histories, keeps_synced_add_message,
               keeps_synced_update_chat_title, keeps_synced_current_chat,
               keeps_synced_current_chat_id, keeps_synced_current_chat_title,
               keeps_synced_set_current_chat_title,
               keeps_synced_set_current_chat_id]
    | apply keeps_synced_bind; [|intros ?]
    | apply keeps_synced_try_except; [|intros ?]
    | match goal with
      | |- keeps_synced (match ?x with _ => _ end) => destruct x
      | |- keeps_synced (if ?b then _ else _) => destruct b
      end ].
Qed.

(** X19. The session store stays in step with the manager.  If it holds
    the list and the histories of the manager, it still does after a whole
    turn, after the creation of a conversation from the sidebar or by
    title, after a change of the current chat, after the sidebar's check
    for an empty conversation and after a refresh, whether these returned
    or raised: nothing a rerun of the script would read is left behind. *)
Theorem session_store_in_step (W : World) (s : State) :
  synced s ->
  (forall user_input, synced (GUI._render_chat_input W user_input s).2) /\
  synced (GUI._create_new_chat W s).2 /\
  (forall new_id, synced (GUI._update_current_chat new_id s).2) /\
  (forall l, synced (GUI.has_empty_chat W l s).2) /\
  (forall t, synced (ChatManager.create_new_chat_with_title W t s).2) /\
  synced (ChatManager.refresh_from_db W s).2.
Proof.
  intros Hs.
  assert (Hnew : synced (GUI._create_new_chat W s).2).
  { clear Hs.
    unfold GUI._create_new_chat, GUI._update_current_chat,
      GUI.set_current_chat_id, GUI.set_current_chat_title, GUI.current_chat,
      ChatManager.get_chat_title_by_id, sync_chat_list,
      sync_all_chat_histories, bind, get_state, modify, call, ret, raise.
    cbn. by destruct (ss_current_chat (session_state s)). }
  assert (Hcreate : forall t,
             synced (ChatManager.create_new_chat_with_title W t s).2).
  { intros t. rewrite create_new_chat_with_title_run. cbv zeta.
    by destruct (db_create_chat W (trace s) None t) as [[i|]|e]. }
  assert (Hrefresh : synced (ChatManager.refresh_from_db W s).2).
  { unfold ChatManager.refresh_from_db, ChatManager._load_chat_list_from_db,
      sync_chat_list, sync_all_chat_histories, bind, modify, call.
    by destruct (db_get_all_chats W (trace s)). }
  split; [intros; by apply keeps_synced_render_chat_input|]. split; [done|].
  split; [intros; by apply keeps_synced_update_current_chat|].
  split; [intros; by apply keeps_synced_has_empty_chat|].
  split; [done | done].
Qed.

Lemma session_store_in_step_witness :
  synced
    (GUI._render_chat_input quiet_world (Some (lit "hi"))
       (one_chat (lit "c1") NEW_CHAT_TITLE [] None)).2.
Proof.
  apply (proj1 (session_store_in_step quiet_world
                  (one_chat (lit "c1") NEW_CHAT_TITLE [] None)
                  (conj eq_refl eq_refl))).
Defined.

Lemma initialize_session_state_set (W : World) (s : State) (i t : str) :
  ss_current_chat (session_state s)
    = Some {| cc_id := Some i; cc_title := Some t |} ->
  GUI._initialize_session_state W s = (Ok tt, s).
Proof.
  intros Hc.
  unfold GUI._initialize_session_state, GUI.current_chat, bind, get_state,
    ret.
  repeat (rewrite Hc; cbn). reflexivity.
Qed.

(** X20. A rerun of the script finds the session again.  When the session
    store holds a list, histories and a current chat with id and title,
    the two constructors take the list and the histories from it, whatever
    the attributes of the manager were, keep the current chat, write
    nothing to the session store and call nothing outside the process. *)
Theorem startup_rerun (W : World) (s : State) (l : list Chat)
  (hs : gmap str (list Message)) (i t : str) :
  ss_chat_list (session_state s) = Some l ->
  ss_all_chat_histories (session_state s) = Some hs ->
  ss_current_chat (session_state s)
    = Some {| cc_id := Some i; cc_title := Some t |} ->
  let run := startup W s in
  run.1 = Ok tt /\
  chat_list run.2 = l /\
  all_chat_histories run.2 = hs /\
  session_state run.2 = session_state s /\
  rag_manager run.2 = rag_manager s /\
  trace run.2 = trace s.
Proof.
  intros Hl Hh Hc. cbv zeta. unfold startup, bind.
  rewrite restore_from_session_state_run, Hl, Hh. cbn [default from_option].
  by rewrite (initialize_session_state_set W _ i t).
Qed.

Lemma startup_rerun_witness :
  let s :=
    one_chat (lit "c1") (lit "Loans") [user_says (lit "hi")] None in
  let run :=
    startup offline_world (set_all_chat_histories ∅ (set_chat_list [] s)) in
  run.1 = Ok tt /\ chat_list run.2 = chat_list s /\
  all_chat_histories run.2 = all_chat_histories s /\ trace run.2 = [].
Proof.
  destruct
    (startup_rerun offline_world
       (set_all_chat_histories ∅
          (set_chat_list []
             (one_chat (lit "c1") (lit "Loans") [user_says (lit "hi")] None)))
       [{| id := lit "c1"; title := lit "Loans" |}]
       {[ lit "c1" := [user_says (lit "hi")] ]}
       (lit "c1") (lit "Loans") eq_refl eq_refl eq_refl)
    as (H1 & H2 & H3 & _ & _ & H4).
  by repeat split.
Defined.
